(** * Bayt al-Hikma personal library manager: data-access layer

    A shallow embedding of [models.py] (the [Book] table) and of [app.py]
    (the three service functions [add_book], [get_all_books], [delete_book],
    the cache put around [get_all_books], and the script [main]), followed
    by the properties of the specification, each one stated over these
    definitions.

    Conventions.
    - A Python value that may be [None] is an [option]; Python text is a
      [string] whose characters are code points below 256.
    - The storage layer (SQLAlchemy on SQLite) is not part of the
      repository.  It is modelled by the table contents, a log of the
      statements sent to it and an oracle telling which of the coming
      statements it refuses; the only error it raises is a subclass of
      [SQLAlchemyError].
    - A data frame is the list of dictionaries it was built from; the
      empty data frame is the empty list.
    - Time is an integer number of time units (seconds for the cache). *)

From Stdlib Require Import ZArith List String Ascii Bool Lia DecimalString.
Import ListNotations.
Open Scope string_scope.
Open Scope Z_scope.

Set Implicit Arguments.

(* ================================================================== *)
(** ** Python values *)

Inductive value : Type :=
| VNone
| VInt (z : Z)
| VStr (s : string).

Definition of_int (o : option Z) : value :=
  match o with Some z => VInt z | None => VNone end.

Definition of_str (o : option string) : value :=
  match o with Some s => VStr s | None => VNone end.

Definition value_eqb (a b : value) : bool :=
  match a, b with
  | VNone, VNone => true
  | VInt x, VInt y => x =? y
  | VStr s, VStr t => String.eqb s t
  | _, _ => false
  end.

(** [str(n)] for an integer. *)
Definition str_int (z : Z) : string := NilZero.string_of_int (Z.to_int z).

(** Characters removed by [str.strip()] (code points below 256). *)
Definition isspace (c : ascii) : bool :=
  let n := nat_of_ascii c in
  ((9 <=? n) && (n <=? 13) || (28 <=? n) && (n <=? 32)
   || (n =? 133) || (n =? 160))%nat.

Fixpoint lstrip (s : string) : string :=
  match s with
  | EmptyString => EmptyString
  | String c rest => if isspace c then lstrip rest else s
  end.

Fixpoint rstrip (s : string) : string :=
  match s with
  | EmptyString => EmptyString
  | String c rest =>
      match rstrip rest with
      | EmptyString => if isspace c then EmptyString else String c EmptyString
      | kept => String c kept
      end
  end.

Definition strip (s : string) : string := lstrip (rstrip s).

(** Truth value of a [str]. *)
Definition truthy (s : string) : bool :=
  match s with EmptyString => false | _ => true end.

(* ================================================================== *)
(** ** models.py *)

Inductive ColumnType : Type := Integer | String_ | Date.

(** The arguments of one [Column(...)] call.  [nullable_kw] is [None] when
    the keyword is not given.  [default] is the value the mapper fills in
    when it inserts an object whose attribute is unset; [server_default]
    is the DEFAULT clause of the column in the database. *)
Record Column : Type := {
  type_ : ColumnType;
  primary_key : bool;
  nullable_kw : option bool;
  default : option string;
  server_default : option string
}.

(** [Column(t)] with every keyword left out. *)
Definition Column_ (t : ColumnType) : Column :=
  {| type_ := t; primary_key := false; nullable_kw := None; default := None;
     server_default := None |}.

Record Table : Type := {
  tablename : string;
  columns : list (string * Column)
}.

(** class Book(Base) *)
Definition Book_table : Table :=
  {| tablename := "books";
     columns :=
       [ ("id", {| type_ := Integer; primary_key := true;
                   nullable_kw := None; default := None;
                   server_default := None |});
         ("title", {| type_ := String_; primary_key := false;
                      nullable_kw := Some false; default := None;
                      server_default := None |});
         ("author", {| type_ := String_; primary_key := false;
                       nullable_kw := Some false; default := None;
                       server_default := None |});
         ("isbn", Column_ String_);
         ("category", Column_ String_);
         ("publication_year", Column_ Integer);
         ("status", {| type_ := String_; primary_key := false;
                       nullable_kw := None; default := Some "available";
                       server_default := None |}) ] |}.

(** [Base.metadata]: the tables of the classes declared on [Base]. *)
Definition metadata : list Table := [ Book_table ].

(** A column accepts NULL unless told otherwise or part of the primary key. *)
Definition nullable (c : Column) : bool :=
  match nullable_kw c with
  | Some b => b
  | None => negb (primary_key c)
  end.

Definition primary_key_columns (t : Table) : list (string * Column) :=
  filter (fun nc => primary_key (snd nc)) (columns t).

(** The column whose value the storage layer assigns on insert: the only
    primary-key column, when it is an integer without a default. *)
Definition autoincrement_column (t : Table) : option string :=
  match primary_key_columns t with
  | [ (n, c) ] =>
      match type_ c, default c with
      | Integer, None => Some n
      | _, _ => None
      end
  | _ => None
  end.

Definition column_named (t : Table) (n : string) : option Column :=
  option_map snd (find (fun nc => String.eqb (fst nc) n) (columns t)).

(** What the table created in the database says of one column, after the
    defaults of [Column] have been resolved.  [col_default] is the DEFAULT
    clause of the column; [col_mapper_default] is not part of the table:
    it is the value the mapper fills in on insert. *)
Record ColumnInfo : Type := {
  col_name : string;
  col_type : ColumnType;
  col_primary_key : bool;
  col_auto_assigned : bool;
  col_nullable : bool;
  col_default : option string;
  col_mapper_default : option string
}.

Definition describe (t : Table) (nc : string * Column) : ColumnInfo :=
  {| col_name := fst nc;
     col_type := type_ (snd nc);
     col_primary_key := primary_key (snd nc);
     col_auto_assigned :=
       match autoincrement_column t with
       | Some n => String.eqb n (fst nc)
       | None => false
       end;
     col_nullable := nullable (snd nc);
     col_default := server_default (snd nc);
     col_mapper_default := default (snd nc) |}.

Definition schema (t : Table) : list ColumnInfo := map (describe t) (columns t).

Definition type_sql (t : ColumnType) : string :=
  match t with
  | Integer => "INTEGER"
  | String_ => "VARCHAR"
  | Date => "DATE"
  end.

(** The specification of one column in CREATE TABLE: name, type, DEFAULT
    clause when the column has a server default, NOT NULL when it does
    not accept NULL. *)
Definition column_sql (nc : string * Column) : string :=
  fst nc ++ " " ++ type_sql (type_ (snd nc))
  ++ match server_default (snd nc) with
     | Some d => " DEFAULT '" ++ d ++ "'"
     | None => ""
     end
  ++ (if nullable (snd nc) then "" else " NOT NULL").

(** The statement [create_all] sends for a table that is missing, on one
    line. *)
Definition create_table_sql (t : Table) : string :=
  "CREATE TABLE " ++ tablename t ++ " ("
  ++ String.concat ", "
       (map column_sql (columns t)
        ++ match primary_key_columns t with
           | [] => []
           | pk => [ "PRIMARY KEY (" ++ String.concat ", " (map fst pk) ++ ")" ]
           end)
  ++ ")".

(** An instance of the mapped class: one attribute per column. *)
Record Book : Type := {
  id : option Z;
  title : option string;
  author : option string;
  isbn : option string;
  category : option string;
  publication_year : option Z;
  status : option string
}.

(** [Book(title=..., author=..., isbn=..., category=...,
    publication_year=...)]: the attributes not named stay unset. *)
Definition Book_init (title author isbn category : option string)
    (publication_year : option Z) : Book :=
  {| id := None; title := title; author := author; isbn := isbn;
     category := category; publication_year := publication_year;
     status := None |}.

Definition getattr (b : Book) (n : string) : value :=
  if String.eqb n "id" then of_int (id b)
  else if String.eqb n "title" then of_str (title b)
  else if String.eqb n "author" then of_str (author b)
  else if String.eqb n "isbn" then of_str (isbn b)
  else if String.eqb n "category" then of_str (category b)
  else if String.eqb n "publication_year" then of_int (publication_year b)
  else if String.eqb n "status" then of_str (status b)
  else VNone.

(* ================================================================== *)
(** ** The world the script runs in *)

(** A dictionary with text keys, in insertion order. *)
Definition dict : Type := list (string * value).

(** [pd.DataFrame(rows)]; [pd.DataFrame()] is [[]].  The frame is kept as
    the rows it was built from: the types pandas gives to its columns (a
    column of integers with a NULL becomes floating point) are left out. *)
Definition DataFrame : Type := list dict.

Definition empty (df : DataFrame) : bool :=
  match df with [] => true | _ => false end.

(** What the page shows. *)
Inductive Element : Type :=
| ElTitle (s : string)
| ElHeader (s : string)
| ElDataframe (df : DataFrame)
| ElInfo (s : string)
| ElSuccess (s : string)
| ElError (s : string)
| ElBalloons.

(** Statements sent to the storage layer. *)
Inductive Statement : Type :=
| SELECT_all
| SELECT_by_id (k : Z)
| INSERT (b : Book)
| DELETE (k : Z).

(** Exceptions: the two subclasses of [SQLAlchemyError] the storage layer
    raises, and any other Python exception. *)
Inductive Exception : Type :=
| IntegrityError (msg : string)
| OperationalError (msg : string)
| OtherException (msg : string).

Definition is_SQLAlchemyError (e : Exception) : bool :=
  match e with
  | IntegrityError _ | OperationalError _ => true
  | OtherException _ => false
  end.

(** [str(e)], cut down to the message of the driver: the class name in
    front of it and the statement and parameters after it, which SQLAlchemy
    adds, are left out. *)
Definition str_exc (e : Exception) : string :=
  match e with
  | IntegrityError m | OperationalError m | OtherException m => m
  end.

Record World : Type := {
  books : list Book;              (* table "books", in rowid order *)
  faults : list (option string);  (* [Some m]: the statement to come fails with m *)
  statements : list Statement;    (* statements sent so far, oldest first *)
  page : list Element;            (* elements emitted so far, oldest first *)
  cache : option (Z * DataFrame); (* entry of get_all_books: time stored, value *)
  clock : Z
}.

Definition set_books (bs : list Book) (w : World) : World :=
  {| books := bs; faults := faults w; statements := statements w;
     page := page w; cache := cache w; clock := clock w |}.

Definition set_faults (fs : list (option string)) (w : World) : World :=
  {| books := books w; faults := fs; statements := statements w;
     page := page w; cache := cache w; clock := clock w |}.

Definition log_statement (s : Statement) (w : World) : World :=
  {| books := books w; faults := faults w;
     statements := statements w ++ [s];
     page := page w; cache := cache w; clock := clock w |}.

Definition emit (e : Element) (w : World) : World :=
  {| books := books w; faults := faults w; statements := statements w;
     page := page w ++ [e]; cache := cache w; clock := clock w |}.

Definition set_cache (c : option (Z * DataFrame)) (w : World) : World :=
  {| books := books w; faults := faults w; statements := statements w;
     page := page w; cache := c; clock := clock w |}.

(** Time passing between two calls. *)
Definition elapse (d : Z) (w : World) : World :=
  {| books := books w; faults := faults w; statements := statements w;
     page := page w; cache := cache w; clock := clock w + d |}.

(** A database file that holds the empty table, a storage layer that
    never fails, an empty page, an empty cache. *)
Definition fresh_world : World :=
  {| books := []; faults := []; statements := []; page := [];
     cache := None; clock := 0 |}.

(* ------------------------------------------------------------------ *)
(** *** Computations: state and exceptions *)

Inductive Outcome (A : Type) : Type :=
| Returned (a : A)
| Raised (e : Exception).

Arguments Raised {A} e.

Definition App (A : Type) : Type := World -> Outcome A * World.

Definition ret {A} (a : A) : App A := fun w => (Returned a, w).

Definition raise {A} (e : Exception) : App A := fun w => (Raised e, w).

Definition bind {A B} (m : App A) (k : A -> App B) : App B :=
  fun w =>
    match m w with
    | (Returned a, w') => k a w'
    | (Raised e, w') => (Raised e, w')
    end.

Declare Scope app_scope.
Delimit Scope app_scope with app.
Notation "x <- m ;; k" := (bind m (fun x => k))
  (at level 61, m at next level, right associativity) : app_scope.
Notation "m ;; k" := (bind m (fun _ => k))
  (at level 61, right associativity) : app_scope.
Open Scope app_scope.

(** [try: body  except SQLAlchemyError as e: handler(e)] *)
Definition try_except_SQLAlchemyError {A} (body : App A)
    (handler : Exception -> App A) : App A :=
  fun w =>
    match body w with
    | (Returned a, w') => (Returned a, w')
    | (Raised e, w') =>
        if is_SQLAlchemyError e then handler e w' else (Raised e, w')
    end.

Definition modify (f : World -> World) : App unit :=
  fun w => (Returned tt, f w).

Definition st_title (s : string) : App unit := modify (emit (ElTitle s)).
Definition st_header (s : string) : App unit := modify (emit (ElHeader s)).
Definition st_dataframe (df : DataFrame) : App unit :=
  modify (emit (ElDataframe df)).
Definition st_info (s : string) : App unit := modify (emit (ElInfo s)).
Definition st_success (s : string) : App unit := modify (emit (ElSuccess s)).
Definition st_error (s : string) : App unit := modify (emit (ElError s)).
Definition st_balloons : App unit := modify (emit ElBalloons).

(* ------------------------------------------------------------------ *)
(** *** The storage layer *)

(** What the oracle holds for the statement to come: [Some m] when the
    storage layer refuses it with message [m]. *)
Definition refused (w : World) : option string :=
  match faults w with
  | Some m :: _ => Some m
  | _ => None
  end.

(** Sending one statement: it is logged, the oracle moves on, and the
    statement is refused when the oracle says so.  The integers a statement
    carries are parameters the driver has already converted, so they are
    within the signed 64-bit range of SQLite; the conversion of a Python
    integer of any size, which fails outside that range with an error that
    is no [SQLAlchemyError], is [sqlite_int] and is put in front of the
    service functions by [add_book_call] and [delete_book_call]. *)
Definition execute (s : Statement) : App unit :=
  fun w =>
    let w1 := set_faults (tl (faults w)) (log_statement s w) in
    match refused w with
    | Some m => (Raised (OperationalError m), w1)
    | None => (Returned tt, w1)
    end.

Definition has_id (k : Z) (b : Book) : bool :=
  match id b with Some j => j =? k | None => false end.

Definition ids (bs : list Book) : list Z :=
  flat_map (fun b => match id b with Some j => [j] | None => [] end) bs.

(** The rowid given to a row inserted without one: 1 in an empty table,
    one more than the largest rowid otherwise.  (When the largest rowid is
    2^63 - 1, which only a row written by other means can have, SQLite
    picks an unused rowid at random; this is left out.) *)
Definition next_rowid (bs : list Book) : Z :=
  match ids bs with
  | [] => 1
  | j :: js => fold_left Z.max js j + 1
  end.

(** Column defaults are filled in for the attributes left unset. *)
Definition apply_defaults (b : Book) : Book :=
  {| id := id b; title := title b; author := author b; isbn := isbn b;
     category := category b; publication_year := publication_year b;
     status :=
       match status b with
       | Some s => Some s
       | None =>
           match column_named Book_table "status" with
           | Some c => default c
           | None => None
           end
       end |}.

(** The first column declared NOT NULL, other than the auto-assigned key,
    for which the row holds no value. *)
Definition violated_not_null (b : Book) : option string :=
  option_map fst
    (find (fun nc =>
             negb (nullable (snd nc))
             && negb (match autoincrement_column Book_table with
                      | Some n => String.eqb n (fst nc)
                      | None => false
                      end)
             && value_eqb (getattr b (fst nc)) VNone)
          (columns Book_table)).

Definition with_id (k : Z) (b : Book) : Book :=
  {| id := Some k; title := title b; author := author b; isbn := isbn b;
     category := category b; publication_year := publication_year b;
     status := status b |}.

(** INSERT INTO books (...) VALUES (...) *)
Definition insert_row (b : Book) : App unit :=
  let row := apply_defaults b in
  execute (INSERT row) ;;
  match violated_not_null row with
  | Some col =>
      raise (IntegrityError
               ("NOT NULL constraint failed: " ++ tablename Book_table
                ++ "." ++ col))
  | None =>
      modify (fun w =>
                set_books (books w ++ [with_id (next_rowid (books w)) row]) w)
  end.

(** DELETE FROM books WHERE id = k *)
Definition delete_row (k : Z) : App unit :=
  execute (DELETE k) ;;
  modify (fun w => set_books (filter (fun b => negb (has_id k b)) (books w)) w).

(** SELECT ... FROM books *)
Definition select_all : App (list Book) :=
  execute SELECT_all ;;
  (fun w => (Returned (books w), w)).

(** SELECT ... FROM books WHERE id = k *)
Definition select_by_id (k : Z) : App (option Book) :=
  execute (SELECT_by_id k) ;;
  (fun w => (Returned (find (has_id k) (books w)), w)).

(* ------------------------------------------------------------------ *)
(** *** Sessions *)

(** The unit of work of one session: objects added and objects marked for
    deletion, not yet flushed. *)
Record Session : Type := {
  pending_new : list Book;
  pending_deleted : list Book
}.

(** [Session()] *)
Definition Session_ : Session := {| pending_new := []; pending_deleted := [] |}.

(** [session.add(obj)] *)
Definition session_add (s : Session) (obj : Book) : Session :=
  {| pending_new := pending_new s ++ [obj];
     pending_deleted := pending_deleted s |}.

(** [session.delete(obj)] *)
Definition session_delete (s : Session) (obj : Book) : Session :=
  {| pending_new := pending_new s;
     pending_deleted := pending_deleted s ++ [obj] |}.

Fixpoint for_each {A} (f : A -> App unit) (l : list A) : App unit :=
  match l with
  | [] => ret tt
  | a :: rest => f a ;; for_each f rest
  end.

Definition flush (s : Session) : App unit :=
  for_each insert_row (pending_new s) ;;
  for_each (fun b => match id b with
                     | Some k => delete_row k
                     | None => ret tt
                     end) (pending_deleted s).

(** [session.commit()]: flush the unit of work; when a statement fails the
    transaction is rolled back and the error goes on to the caller. *)
Definition session_commit (s : Session) : App Session :=
  fun w =>
    match flush s w with
    | (Returned _, w') => (Returned Session_, w')
    | (Raised e, w') => (Raised e, set_books (books w) w')
    end.

(** [session.query(Book).all()] *)
Definition session_query_all (s : Session) : App (list Book) := select_all.

(** [session.query(Book).get(k)] in a session that has loaded nothing. *)
Definition session_query_get (s : Session) (k : Z) : App (option Book) :=
  select_by_id k.

(** [with Session() as session: body]: what the session holds and has not
    committed is dropped on the way out, whichever way that is. *)
Definition with_Session {A} (body : Session -> App A) : App A :=
  body Session_.

(* ================================================================== *)
(** ** app.py *)

(** An argument that has a default in the signature: [None] when the
    caller leaves it out. *)
Definition supplied {A} (given : option A) (dflt : A) : A :=
  match given with Some a => a | None => dflt end.

(** def add_book(title, author, isbn="", category="", publication_year=None),
    called with every argument given. *)
Definition add_book (title author isbn category : option string)
    (publication_year : option Z) : App bool :=
  try_except_SQLAlchemyError
    (with_Session (fun session =>
       let new_book := Book_init title author isbn category publication_year in
       let session := session_add session new_book in
       _ <- session_commit session ;;
       ret true))
    (fun e =>
       st_error ("Error adding book: " ++ str_exc e) ;;
       ret false).

(** The integers SQLite stores: signed, 64 bits. *)
Definition fits_int64 (z : Z) : bool := (- 2 ^ 63 <=? z) && (z <? 2 ^ 63).

(** What the driver raises for a Python integer outside that range.  It is
    an [OverflowError], which is no [SQLAlchemyError]. *)
Definition OverflowError : Exception :=
  OtherException "Python int too large to convert to SQLite INTEGER".

(** The driver converting a Python integer into a parameter of a
    statement. *)
Definition sqlite_int (z : Z) : App Z :=
  if fits_int64 z then ret z else raise OverflowError.

Definition year_fits (publication_year : option Z) : bool :=
  match publication_year with
  | Some y => fits_int64 y
  | None => true
  end.

(** A call of [add_book] as Python makes it: it may leave out the
    arguments with a default, and the year is a Python integer of any
    size.  The driver converts the year when the INSERT is executed; its
    [OverflowError] is not caught by [except SQLAlchemyError], so the call
    ends with it and nothing reaches the storage layer.  [add_book] above
    is the call with a year already converted. *)
Definition add_book_call (title author : option string)
    (isbn category : option (option string))
    (publication_year : option (option Z)) : App bool :=
  let year := supplied publication_year None in
  match year with
  | Some y =>
      _ <- sqlite_int y ;;
      add_book title author
        (supplied isbn (Some "")) (supplied category (Some "")) year
  | None =>
      add_book title author
        (supplied isbn (Some "")) (supplied category (Some "")) year
  end.

(** The dictionary built for one book in [get_all_books]. *)
Definition book_dict (book : Book) : dict :=
  [ ("id", of_int (id book));
    ("title", of_str (title book));
    ("author", of_str (author book));
    ("isbn", of_str (isbn book));
    ("category", of_str (category book));
    ("publication_year", of_int (publication_year book));
    ("status", of_str (status book)) ].

(** The body of [get_all_books], before the cache is put around it. *)
Definition get_all_books_body : App DataFrame :=
  try_except_SQLAlchemyError
    (with_Session (fun session =>
       books <- session_query_all session ;;
       let books_data := map book_dict books in
       ret (match books_data with
            | [] => []
            | _ => books_data
            end)))
    (fun e =>
       st_error ("Error retrieving books: " ++ str_exc e) ;;
       ret []).

(** [@st.cache_data(ttl=...)] around a function without arguments: one
    entry, served while it is younger than [ttl]; a value the function
    returns is stored with the time of the call.  Streamlit also shows
    again, on a hit, the elements the cached call had emitted (the
    [st.error] of a refused listing); this replay is left out, so that on
    a hit the page of the model lacks those elements. *)
Definition cache_data (ttl : Z) (f : App DataFrame) : App DataFrame :=
  fun w =>
    let recompute (w0 : World) :=
      match f w0 with
      | (Returned v, w') => (Returned v, set_cache (Some (clock w', v)) w')
      | (Raised e, w') => (Raised e, w')
      end in
    match cache w with
    | Some (stored, v) =>
        if clock w <? stored + ttl then (Returned v, w)
        else recompute (set_cache None w)
    | None => recompute w
    end.

Definition get_all_books : App DataFrame := cache_data 60 get_all_books_body.

(** [get_all_books.clear()] *)
Definition get_all_books_clear : App unit := modify (set_cache None).

(** def delete_book(book_id) *)
Definition delete_book (book_id : Z) : App bool :=
  try_except_SQLAlchemyError
    (with_Session (fun session =>
       book <- session_query_get session book_id ;;
       match book with
       | Some b =>
           let session := session_delete session b in
           _ <- session_commit session ;;
           ret true
       | None => ret false
       end))
    (fun e =>
       st_error ("Error deleting book: " ++ str_exc e) ;;
       ret false).

(** A call of [delete_book] as Python makes it, the key being a Python
    integer of any size: the driver converts it when the SELECT is
    executed, and its [OverflowError] is not caught by
    [except SQLAlchemyError]. *)
Definition delete_book_call (book_id : Z) : App bool :=
  _ <- sqlite_int book_id ;;
  delete_book book_id.

(** The state of the widgets in one run of the script.  The integers of
    the two number widgets are within the range of the driver: the script
    bounds the year between 1000 and the current year, and the widget
    bounds the key it returns. *)
Inductive Menu : Type := View_Books | Add_Book | Delete_Book.

Record Widgets : Type := {
  menu : Menu;
  title_input : string;
  author_input : string;
  isbn_input : string;
  category_input : string;
  publication_year_input : Z;
  add_submitted : bool;
  book_id_input : Z;
  delete_submitted : bool
}.

(** def main(), one run of it (the pictograph that opens the page title
    is left out). *)
Definition main (ui : Widgets) : App unit :=
  st_title "Bayt al-Hikma: Database Connectivity Personal Library Manager" ;;
  match menu ui with
  | View_Books =>
      st_header "Your Book Collection" ;;
      books_df <- get_all_books ;;
      if negb (empty books_df) then st_dataframe books_df
      else st_info "No books in your library yet. Add some books to get started!"
  | Add_Book =>
      st_header "Add New Book" ;;
      let title := title_input ui in
      let author := author_input ui in
      let isbn := isbn_input ui in
      let category := category_input ui in
      let publication_year := publication_year_input ui in
      if add_submitted ui then
        if truthy (strip title) && truthy (strip author) then
          ok <- add_book (Some title) (Some author) (Some isbn)
                  (Some category) (Some publication_year) ;;
          if ok then
            st_success ("Book '" ++ title ++ "' by " ++ author
                        ++ " added successfully!") ;;
            st_balloons ;;
            get_all_books_clear
          else ret tt
        else st_error "Title and Author are required fields"
      else ret tt
  | Delete_Book =>
      st_header "Delete Book" ;;
      books_df <- get_all_books ;;
      if negb (empty books_df) then
        st_dataframe books_df ;;
        let book_id := book_id_input ui in
        if delete_submitted ui then
          ok <- delete_book book_id ;;
          if ok then
            st_success ("Book ID " ++ str_int book_id
                        ++ " deleted successfully") ;;
            get_all_books_clear
          else st_error "Book ID not found"
        else ret tt
      else st_info "No books in your library yet."
  end.

(* ------------------------------------------------------------------ *)
(** *** Sequences of operations *)

(** The operations a caller of the service layer can perform, and time
    passing. *)
Inductive Call : Type :=
| Call_add (title author isbn category : option string)
           (publication_year : option Z)
| Call_list
| Call_delete (book_id : Z)
| Call_clear
| Wait (d : Z).

Definition world_after {A} (r : Outcome A * World) : World := snd r.

Definition call (c : Call) (w : World) : World :=
  match c with
  | Call_add t a i c y => world_after (add_book t a i c y w)
  | Call_list => world_after (get_all_books w)
  | Call_delete k => world_after (delete_book k w)
  | Call_clear => world_after (get_all_books_clear w)
  | Wait d => elapse d w
  end.

Definition calls (cs : list Call) (w : World) : World :=
  fold_left (fun w c => call c w) cs w.

(** The record that [add_book] stores in a table holding [bs]. *)
Definition stored_book (bs : list Book) (title author isbn category : option string)
    (publication_year : option Z) : Book :=
  {| id := Some (next_rowid bs); title := title; author := author;
     isbn := isbn; category := category;
     publication_year := publication_year; status := Some "available" |}.

(** The storage layer refuses none of the statements to come. *)
Definition quiet (w : World) : Prop := Forall (fun f => f = None) (faults w).

(** What a listing shows of a table. *)
Definition snapshot (bs : list Book) : DataFrame := map book_dict bs.

Definition lookup (k : Z) (bs : list Book) : option Book := find (has_id k) bs.

Unset Implicit Arguments.

(* ================================================================== *)
(** ** Notions used by the statements *)

(** The world once statement [s] has been sent, accepted or not. *)
Definition sent (s : Statement) (w : World) : World :=
  set_faults (tl (faults w)) (log_statement s w).

(** The table without the rows whose key is [k]. *)
Definition without (k : Z) (bs : list Book) : list Book :=
  filter (fun b => negb (has_id k b)) bs.

(** The cache holds an entry that [get_all_books] would serve now. *)
Definition live (w : World) : bool :=
  match cache w with
  | Some (stored, _) => clock w <? stored + 60
  | None => false
  end.

(** A dictionary of the frame carries key [k]. *)
Definition shows_id (k : Z) (df : DataFrame) : Prop :=
  exists d, In d df /\ In ("id", VInt k) d.

Definition kitab : Book :=
  {| id := Some 1; title := Some "Kitab al-Manazir";
     author := Some "Ibn al-Haytham"; isbn := Some "";
     category := Some "Science"; publication_year := Some 1021;
     status := Some "available" |}.

(** The table holds book 1 and nothing else; nothing is cached. *)
Definition kitab_world : World := set_books [kitab] fresh_world.

(** The storage layer refuses the next statement, and only that one. *)
Definition locked_once (w : World) : World :=
  set_faults [Some "database is locked"] w.


(** The spec's scenario taken call by call, with no cache clearing: the
    listing made before the delete is still served after it. *)
Definition scenario_before_delete : World :=
  calls [ Call_add (Some "Kitab al-Manazir") (Some "Ibn al-Haytham")
            (Some "") (Some "Science") (Some 1021);
          Call_list ] fresh_world.

Definition is_clear (c : Call) : bool :=
  match c with Call_clear => true | _ => false end.

(** No call of the sequence clears the cache. *)
Definition no_clear (cs : list Call) : bool :=
  forallb (fun c => negb (is_clear c)) cs.

(** Time does not run backwards. *)
Definition waits_forward (cs : list Call) : bool :=
  forallb (fun c => match c with Wait d => 0 <=? d | _ => true end) cs.

Definition add_kitab_form : Widgets :=
  {| menu := Add_Book;
     title_input := "Kitab al-Manazir"; author_input := "Ibn al-Haytham";
     isbn_input := ""; category_input := "Science";
     publication_year_input := 1021; add_submitted := true;
     book_id_input := 1; delete_submitted := false |}.

Definition view_form : Widgets :=
  {| menu := View_Books;
     title_input := ""; author_input := ""; isbn_input := "";
     category_input := ""; publication_year_input := 2026;
     add_submitted := false; book_id_input := 1; delete_submitted := false |}.

Definition delete_form (k : Z) : Widgets :=
  {| menu := Delete_Book;
     title_input := ""; author_input := ""; isbn_input := "";
     category_input := ""; publication_year_input := 2026;
     add_submitted := false; book_id_input := k; delete_submitted := true |}.

(** The form of "Add Book" sent with a title of three spaces. *)
Definition blank_title_form : Widgets :=
  {| menu := Add_Book;
     title_input := "   "; author_input := "Ibn al-Haytham";
     isbn_input := ""; category_input := "Science";
     publication_year_input := 1021; add_submitted := true;
     book_id_input := 1; delete_submitted := false |}.

(** Book 1 is stored and its listing is cached. *)
Definition kitab_listed : World := snd (get_all_books kitab_world).

(** The record with key [k] exists before the calls [cs], between any two
    of them and after the last. *)
Fixpoint survives (k : Z) (cs : list Call) (w : World) : bool :=
  match lookup k (books w) with
  | None => false
  | Some _ =>
      match cs with
      | [] => true
      | c :: rest => survives k rest (call c w)
      end
  end.

Definition available (b : Book) : Prop := status b = Some "available".

(** The page once a run of the script has put its title and the header
    [h] of the page chosen in the menu. *)
Definition opened (h : string) (w : World) : World :=
  emit (ElHeader h)
    (emit (ElTitle
             "Bayt al-Hikma: Database Connectivity Personal Library Manager")
          w).


(** Every record has a key and no two records have the same key. *)
Definition keyed (bs : list Book) : Prop :=
  Forall (fun b => id b <> None) bs /\ NoDup (ids bs).

(** What happens to the application: the user interacts and the script
    runs with the widgets in some state, or time passes. *)
Inductive Step : Type :=
| Run (ui : Widgets)
| Pause (d : Z).

Definition step (s : Step) (w : World) : World :=
  match s with
  | Run ui => snd (main ui w)
  | Pause d => elapse d w
  end.

Definition steps (ss : list Step) (w : World) : World :=
  fold_left (fun w s => step s w) ss w.

(** A statement that changes the table. *)
Definition is_write (s : Statement) : bool :=
  match s with
  | INSERT _ | DELETE _ => true
  | SELECT_all | SELECT_by_id _ => false
  end.

(** A text made of characters that [str.strip()] removes. *)
Fixpoint blank (s : string) : bool :=
  match s with
  | EmptyString => true
  | String c rest => isspace c && blank rest
  end.

(** What a call or a run of the script can do to the table: nothing,
    append the record [add_book] stores, or remove the records of one
    key. *)
Definition table_change (bs bs' : list Book) : Prop :=
  bs' = bs \/
  (exists t a i g y, bs' = (bs ++ [stored_book bs t a i g y])%list) \/
  (exists k, bs' = without k bs).

(* ------------------------------------------------------------------ *)
(** *** Creating the tables *)

(** A table of the database file: its definition as it was created, and
    its rows. *)
Record StoredTable : Type := {
  definition : Table;
  rows : list Book
}.

Definition Database : Type := list StoredTable.

Definition has_table (name : string) (db : Database) : bool :=
  existsb (fun t => String.eqb (tablename (definition t)) name) db.

(** [md.create_all(bind=engine)]: every table of the metadata that the
    database does not have yet is created, empty; a table that exists is
    left alone. *)
Definition create_all (md : list Table) (db : Database) : Database :=
  fold_left
    (fun db t =>
       if has_table (tablename t) db then db
       else (db ++ [ {| definition := t; rows := [] |} ])%list)
    md db.

(** Importing [app]: [models.py] creates the tables when it is imported,
    and [app.py] creates them again. *)
Definition import_app (db : Database) : Database :=
  create_all metadata (create_all metadata db).

(** The rows of the table called [name]. *)
Definition rows_of (name : string) (db : Database) : option (list Book) :=
  option_map rows
    (find (fun t => String.eqb (tablename (definition t)) name) db).

(* ================================================================== *)
(** ** Equations of the service functions *)

Section Equations.

Lemma execute_eq (s : Statement) (w : World) :
  execute s w =
  match refused w with
  | Some m => (Raised (OperationalError m), sent s w)
  | None => (Returned tt, sent s w)
  end.
Proof. reflexivity. Qed.

Lemma rollback_sent (s : Statement) (w : World) :
  set_books (books w) (sent s w) = sent s w.
Proof. destruct w; reflexivity. Qed.

Lemma books_sent (s : Statement) (w : World) : books (sent s w) = books w.
Proof. reflexivity. Qed.

Lemma violated_not_null_eq (b : Book) :
  violated_not_null b =
  match title b, author b with
  | None, _ => Some "title"
  | Some _, None => Some "author"
  | Some _, Some _ => None
  end.
Proof. destruct b as [i [t|] [a|] ? ? ? ?]; reflexivity. Qed.

Lemma apply_defaults_init (t a i c : option string) (y : option Z) :
  apply_defaults (Book_init t a i c y) =
  {| id := None; title := t; author := a; isbn := i; category := c;
     publication_year := y; status := Some "available" |}.
Proof. reflexivity. Qed.

(** [add_book]: one INSERT is sent; the row is appended when the storage
    layer takes it, and nothing is stored otherwise. *)
Lemma add_book_eq (t a i c : option string) (y : option Z) (w : World) :
  add_book t a i c y w =
  let w1 := sent (INSERT (apply_defaults (Book_init t a i c y))) w in
  match refused w with
  | Some m => (Returned false, emit (ElError ("Error adding book: " ++ m)) w1)
  | None =>
      match t, a with
      | None, _ =>
          (Returned false,
           emit (ElError
                   "Error adding book: NOT NULL constraint failed: books.title")
                w1)
      | Some _, None =>
          (Returned false,
           emit (ElError
                   "Error adding book: NOT NULL constraint failed: books.author")
                w1)
      | Some _, Some _ =>
          (Returned true,
           set_books (books w ++ [stored_book (books w) t a i c y]) w1)
      end
  end.
Proof.
  unfold add_book, try_except_SQLAlchemyError, with_Session, session_commit,
    flush, session_add, bind, ret.
  cbn [pending_new pending_deleted Session_ app for_each].
  unfold insert_row, bind. rewrite execute_eq, apply_defaults_init.
  destruct w as [bs fs st pg ca cl]; unfold refused; cbn [faults].
  destruct fs as [|[m|] fs'];
    destruct t as [t|]; destruct a as [a|]; reflexivity.
Qed.

Lemma snapshot_frame (bs : list Book) :
  match map book_dict bs with [] => [] | _ => map book_dict bs end
  = snapshot bs.
Proof. destruct bs; reflexivity. Qed.

(** The body of [get_all_books]: one SELECT is sent; its rows in table
    order when it is accepted, the empty frame when it is refused. *)
Lemma get_all_books_body_eq (w : World) :
  get_all_books_body w =
  match refused w with
  | Some m =>
      (Returned [],
       emit (ElError ("Error retrieving books: " ++ m)) (sent SELECT_all w))
  | None => (Returned (snapshot (books w)), sent SELECT_all w)
  end.
Proof.
  unfold get_all_books_body, try_except_SQLAlchemyError, with_Session,
    session_query_all, select_all, bind, ret.
  rewrite execute_eq.
  destruct (refused w) as [m|]; [reflexivity|].
  rewrite snapshot_frame. reflexivity.
Qed.

Lemma lookup_has_id (k : Z) (bs : list Book) (b : Book) :
  lookup k bs = Some b -> id b = Some k.
Proof.
  intros H. apply find_some in H as [_ H]. unfold has_id in H.
  destruct (id b) as [j|]; [|discriminate].
  apply Z.eqb_eq in H. now subst.
Qed.

(** [delete_book]: a SELECT by key, then a DELETE when a row was found. *)
Lemma delete_book_eq (k : Z) (w : World) :
  delete_book k w =
  let w1 := sent (SELECT_by_id k) w in
  match refused w with
  | Some m => (Returned false, emit (ElError ("Error deleting book: " ++ m)) w1)
  | None =>
      match lookup k (books w) with
      | None => (Returned false, w1)
      | Some _ =>
          let w2 := sent (DELETE k) w1 in
          match refused w1 with
          | Some m =>
              (Returned false, emit (ElError ("Error deleting book: " ++ m)) w2)
          | None => (Returned true, set_books (without k (books w)) w2)
          end
      end
  end.
Proof.
  unfold delete_book, try_except_SQLAlchemyError, with_Session,
    session_query_get, select_by_id, bind, ret.
  rewrite execute_eq.
  destruct (refused w) as [m|]; [reflexivity|].
  cbn zeta. rewrite books_sent. fold (lookup k (books w)).
  destruct (lookup k (books w)) as [b|] eqn:Hb; [|reflexivity].
  apply lookup_has_id in Hb.
  unfold session_commit, flush, session_delete, bind, ret.
  cbn [pending_new pending_deleted Session_ app for_each].
  rewrite Hb. unfold delete_row, bind, modify, ret. cbv beta iota zeta.
  rewrite execute_eq.
  destruct (refused (sent (SELECT_by_id k) w)) as [m|] eqn:Hr.
  - cbn [is_SQLAlchemyError]. rewrite rollback_sent. reflexivity.
  - reflexivity.
Qed.

End Equations.

(* ================================================================== *)
(** ** The cache and the oracle *)

Section CacheAndOracle.

Lemma get_all_books_hit (w : World) (stored : Z) (v : DataFrame) :
  cache w = Some (stored, v) -> clock w < stored + 60 ->
  get_all_books w = (Returned v, w).
Proof.
  intros Hc Ht. unfold get_all_books, cache_data. rewrite Hc.
  apply Z.ltb_lt in Ht. rewrite Ht. reflexivity.
Qed.

(** Without a live entry the body runs, and what it returns is stored
    with the time of the call. *)
Lemma get_all_books_miss (w : World) :
  live w = false ->
  get_all_books w =
  match refused w with
  | Some m =>
      (Returned [],
       set_cache (Some (clock w, []))
         (emit (ElError ("Error retrieving books: " ++ m)) (sent SELECT_all w)))
  | None =>
      (Returned (snapshot (books w)),
       set_cache (Some (clock w, snapshot (books w))) (sent SELECT_all w))
  end.
Proof.
  unfold live, get_all_books, cache_data. intros Hl.
  destruct (cache w) as [[stored v]|] eqn:Hc.
  - rewrite Hl, get_all_books_body_eq.
    change (refused (set_cache None w)) with (refused w).
    destruct (refused w); reflexivity.
  - rewrite get_all_books_body_eq. destruct (refused w); reflexivity.
Qed.

Lemma quiet_refused (w : World) : quiet w -> refused w = None.
Proof.
  unfold quiet, refused. intros H. destruct (faults w) as [|[m|] fs].
  - reflexivity.
  - inversion H; discriminate.
  - reflexivity.
Qed.

Lemma quiet_sent (s : Statement) (w : World) : quiet w -> quiet (sent s w).
Proof.
  unfold quiet. cbn. intros H. destruct (faults w); [assumption|].
  now inversion H.
Qed.

Lemma live_cleared (w : World) : live (set_cache None w) = false.
Proof. reflexivity. Qed.

End CacheAndOracle.

(* ================================================================== *)
(** ** Keys *)

Section Keys.

Lemma fold_max_bounds (js : list Z) (j : Z) :
  j <= fold_left Z.max js j /\
  forall x, In x js -> x <= fold_left Z.max js j.
Proof.
  revert j. induction js as [|a js IH]; intros j; cbn.
  - split; [lia | intros x []].
  - destruct (IH (Z.max j a)) as [H1 H2]. split; [lia|].
    intros x [<-|Hx]; [lia | now apply H2].
Qed.

(** Every key in the table is below the key given to the next row. *)
Lemma next_rowid_above (bs : list Book) (k : Z) :
  In k (ids bs) -> k < next_rowid bs.
Proof.
  unfold next_rowid. destruct (ids bs) as [|j js]; [intros []|].
  destruct (fold_max_bounds js j) as [H1 H2].
  intros [<-|Hk]; [lia|]. specialize (H2 _ Hk). lia.
Qed.

Lemma next_rowid_fresh (bs : list Book) : ~ In (next_rowid bs) (ids bs).
Proof. intros H. apply next_rowid_above in H. lia. Qed.

Lemma ids_In (bs : list Book) (k : Z) :
  In k (ids bs) <-> exists b, In b bs /\ id b = Some k.
Proof.
  unfold ids. rewrite in_flat_map. split.
  - intros (b & Hb & Hk). exists b. split; [assumption|].
    destruct (id b) as [j|]; cbn in Hk; [|contradiction].
    destruct Hk as [<-|[]]. reflexivity.
  - intros (b & Hb & Hk). exists b. split; [assumption|].
    rewrite Hk. now left.
Qed.

Lemma has_id_true (k : Z) (b : Book) : has_id k b = true <-> id b = Some k.
Proof.
  unfold has_id. destruct (id b) as [j|].
  - rewrite Z.eqb_eq. split; [now intros -> | now intros [= ->]].
  - split; discriminate.
Qed.

Lemma lookup_ids (k : Z) (bs : list Book) :
  lookup k bs <> None <-> In k (ids bs).
Proof.
  rewrite ids_In. unfold lookup. split.
  - destruct (find (has_id k) bs) as [b|] eqn:Hf; [|congruence].
    intros _. apply find_some in Hf as [Hin Hk].
    exists b. split; [assumption | now apply has_id_true].
  - intros (b & Hb & Hk) Hn.
    apply (find_none _ _ Hn) in Hb. apply has_id_true in Hk. congruence.
Qed.

Lemma ids_without (k : Z) (bs : list Book) : ~ In k (ids (without k bs)).
Proof.
  rewrite ids_In. intros (b & Hb & Hk). unfold without in Hb.
  apply filter_In in Hb as [_ Hb]. apply has_id_true in Hk.
  rewrite Hk in Hb. discriminate.
Qed.

Lemma lookup_app_new (k : Z) (bs : list Book) (b : Book) :
  lookup k bs <> None -> lookup k (bs ++ [b]) = lookup k bs.
Proof.
  unfold lookup. induction bs as [|a bs IH]; cbn; [congruence|].
  destruct (has_id k a); [reflexivity | exact IH].
Qed.

Lemma lookup_without_other (j k : Z) (bs : list Book) :
  j <> k -> lookup k (without j bs) = lookup k bs.
Proof.
  intros Hjk. unfold lookup, without.
  induction bs as [|a bs IH]; cbn; [reflexivity|].
  destruct (has_id j a) eqn:Hj; cbn.
  - destruct (has_id k a) eqn:Hk; [|exact IH].
    apply has_id_true in Hj. apply has_id_true in Hk. congruence.
  - destruct (has_id k a); [reflexivity | exact IH].
Qed.

Lemma lookup_without_same (k : Z) (bs : list Book) :
  lookup k (without k bs) = None.
Proof.
  destruct (lookup k (without k bs)) eqn:H; [|reflexivity].
  exfalso. apply (ids_without k bs). apply lookup_ids. congruence.
Qed.

Lemma snapshot_shows_id (k : Z) (bs : list Book) :
  shows_id k (snapshot bs) <-> In k (ids bs).
Proof.
  unfold shows_id, snapshot. rewrite ids_In. split.
  - intros (d & Hd & Hk). apply in_map_iff in Hd as (b & <- & Hb).
    exists b. split; [assumption|].
    cbn in Hk. destruct Hk as [Hk|Hk].
    + destruct (id b); cbn in Hk; [now inversion Hk | discriminate].
    + repeat (destruct Hk as [Hk|Hk]; [discriminate|]). contradiction.
  - intros (b & Hb & Hk). exists (book_dict b). split.
    + now apply in_map.
    + cbn. left. now rewrite Hk.
Qed.

End Keys.

Lemma quiet_fresh_world : quiet fresh_world.
Proof. constructor. Qed.

(* ================================================================== *)
(** ** Adding a book *)

Section Adding.

(** C1.  For every title and author that are texts (in particular for every
    pair the form accepts), when the storage layer refuses nothing,
    [add_book] returns true and a listing made after the cache has been
    cleared returns the records that were there before the call, in the
    same order, followed by exactly one new record: it carries that title
    and that author, status "available", and a key no earlier record
    has. *)
Theorem C1_add_then_list (t a : string) (i c : option string) (y : option Z)
    (w : World) :
  quiet w ->
  let r1 := add_book (Some t) (Some a) i c y w in
  let r2 := get_all_books_clear (snd r1) in
  let r3 := get_all_books (snd r2) in
  fst r1 = Returned true /\
  fst r3 = Returned
             (snapshot (books w) ++
              [ [ ("id", VInt (next_rowid (books w)));
                  ("title", VStr t);
                  ("author", VStr a);
                  ("isbn", of_str i);
                  ("category", of_str c);
                  ("publication_year", of_int y);
                  ("status", VStr "available") ] ])%list /\
  ~ shows_id (next_rowid (books w)) (snapshot (books w)).
Proof.
  intros Hq. cbv zeta. rewrite add_book_eq. cbv zeta.
  rewrite (quiet_refused w Hq). cbn [fst snd].
  split; [reflexivity|]. split.
  - unfold get_all_books_clear, modify. cbn [snd].
    rewrite get_all_books_miss by apply live_cleared.
    set (w1 := sent _ w).
    assert (Hq1 : quiet w1) by now apply quiet_sent.
    change (refused (set_cache None (set_books _ w1))) with (refused w1).
    rewrite (quiet_refused w1 Hq1). cbn [fst].
    change (books (set_cache None (set_books ?bs w1))) with bs.
    unfold snapshot. rewrite map_app. reflexivity.
  - rewrite snapshot_shows_id. apply next_rowid_fresh.
Qed.

Lemma C1_add_then_list_witness :
  quiet fresh_world /\
  fst (get_all_books
         (snd (get_all_books_clear
                 (snd (add_book (Some "Kitab al-Manazir")
                         (Some "Ibn al-Haytham") (Some "") (Some "Science")
                         (Some 1021) fresh_world)))))
  = Returned [ book_dict kitab ].
Proof.
  split; [exact quiet_fresh_world|].
  exact (proj1 (proj2 (C1_add_then_list "Kitab al-Manazir" "Ibn al-Haytham"
                         (Some "") (Some "Science") (Some 1021)
                         fresh_world quiet_fresh_world))).
Defined.


Lemma add_book_call_fits (t a : option string) (oi oc : option (option string))
    (oy : option (option Z)) (w : World) :
  year_fits (supplied oy None) = true ->
  add_book_call t a oi oc oy w
  = add_book t a (supplied oi (Some "")) (supplied oc (Some ""))
      (supplied oy None) w.
Proof.
  unfold add_book_call, year_fits. cbv zeta.
  destruct (supplied oy None) as [y|]; [|reflexivity].
  intros H. unfold sqlite_int, bind. rewrite H. reflexivity.
Qed.





(** Both outcomes of C3 occur. *)
Example add_book_accepted :
  let r := add_book (Some "Kitab al-Manazir") (Some "Ibn al-Haytham")
             (Some "") (Some "Science") (Some 1021) fresh_world in
  fst r = Returned true /\ books (snd r) = [kitab].
Proof. split; reflexivity. Qed.

Example add_book_refused :
  let r := add_book (Some "Kitab al-Manazir") (Some "Ibn al-Haytham")
             (Some "") (Some "Science") (Some 1021)
             (locked_once fresh_world) in
  fst r = Returned false /\ books (snd r) = [] /\
  page (snd r) = [ElError "Error adding book: database is locked"].
Proof. repeat split. Qed.

Example add_book_without_title :
  let r := add_book None (Some "Ibn al-Haytham") (Some "") (Some "Science")
             (Some 1021) fresh_world in
  fst r = Returned false /\ books (snd r) = [] /\
  page (snd r)
  = [ElError "Error adding book: NOT NULL constraint failed: books.title"].
Proof. repeat split. Qed.

End Adding.

Section Defaults.

(** C10.  The schema lets [isbn] and [category] hold NULL, yet a call of
    [add_book] that leaves one of them out stores the empty text for it,
    not NULL.  When the title and the author are texts, the year is absent
    or fits 64 bits and the storage layer accepts the INSERT, the call
    returns true and appends exactly one record, whose [isbn] and
    [category] are the empty text for each of the two that was left out
    and the value passed otherwise. *)
Theorem C10_default_isbn_category (t a : string)
    (oi oc : option (option string)) (oy : option (option Z)) (w : World) :
  refused w = None -> year_fits (supplied oy None) = true ->
  let r := add_book_call (Some t) (Some a) oi oc oy w in
  option_map nullable (column_named Book_table "isbn") = Some true /\
  option_map nullable (column_named Book_table "category") = Some true /\
  fst r = Returned true /\
  books (snd r) =
    (books w ++
     [ {| id := Some (next_rowid (books w)); title := Some t;
          author := Some a;
          isbn := match oi with None => Some "" | Some v => v end;
          category := match oc with None => Some "" | Some v => v end;
          publication_year := supplied oy None;
          status := Some "available" |} ])%list.
Proof.
  intros Hr Hy. cbv zeta. split; [reflexivity|]. split; [reflexivity|].
  rewrite (add_book_call_fits (Some t) (Some a) oi oc oy w Hy).
  rewrite add_book_eq. cbv zeta. rewrite Hr. cbn [fst snd].
  split; [reflexivity|]. destruct oi, oc; reflexivity.
Qed.

Lemma C10_default_isbn_category_witness :
  let r := add_book_call (Some "Kitab al-Manazir") (Some "Ibn al-Haytham")
             None None None kitab_world in
  refused kitab_world = None /\ year_fits (supplied None None) = true /\
  fst r = Returned true /\
  books (snd r) =
    [ kitab;
      {| id := Some 2; title := Some "Kitab al-Manazir";
         author := Some "Ibn al-Haytham"; isbn := Some "";
         category := Some ""; publication_year := None;
         status := Some "available" |} ].
Proof.
  cbv zeta. split; [reflexivity|]. split; [reflexivity|].
  pose proof (C10_default_isbn_category "Kitab al-Manazir" "Ibn al-Haytham"
                None None None kitab_world eq_refl eq_refl) as H.
  cbv zeta in H. destruct H as (_ & _ & H1 & H2).
  split; [exact H1 | exact H2].
Defined.

Example add_book_defaults :
  books (snd (add_book_call (Some "Kitab al-Manazir") (Some "Ibn al-Haytham")
                None None None fresh_world))
  = [ {| id := Some 1; title := Some "Kitab al-Manazir";
         author := Some "Ibn al-Haytham"; isbn := Some "";
         category := Some ""; publication_year := None;
         status := Some "available" |} ].
Proof. reflexivity. Qed.

End Defaults.

(* ================================================================== *)
(** ** The schema *)

Section Schema.

(** The table refuses a row exactly when it holds no title or no author:
    the two columns declared NOT NULL (the key is assigned on insert). *)
Lemma not_null_enforced (b : Book) :
  violated_not_null b = None <-> title b <> None /\ author b <> None.
Proof.
  rewrite violated_not_null_eq.
  destruct (title b), (author b); split; try discriminate;
    try (intros [H1 H2]; congruence); intros _; split; discriminate.
Qed.

(** The table as it is in the database gives [status] no default. *)
Lemma C9_status_has_no_schema_default :
  option_map server_default (column_named Book_table "status") = Some None /\
  ~ (exists ci, In ci (schema Book_table) /\ col_name ci = "status" /\
                col_default ci = Some "available").
Proof.
  split; [reflexivity|]. intros (ci & Hin & Hn & Hd).
  cbn in Hin.
  repeat (destruct Hin as [<-|Hin]; [discriminate|]). contradiction.
Qed.

(** C9, as the code has it.  [create_all] on a new database creates
    exactly one table, [books].  Its columns are: [id], integer, primary
    key, assigned by the storage layer; [title] and [author], text, NOT
    NULL; [isbn] and [category], text, nullable; [publication_year],
    integer, nullable; [status], text, nullable.  No column has a DEFAULT
    clause: "available" is not a default of the schema but the value the
    mapper fills in when it inserts an object whose status is unset.  The
    table refuses a row exactly when its title or its author is NULL. *)
Theorem C9_schema :
  map (fun t => tablename (definition t)) (create_all metadata []) = ["books"] /\
  schema Book_table =
  [ {| col_name := "id"; col_type := Integer; col_primary_key := true;
       col_auto_assigned := true; col_nullable := false;
       col_default := None; col_mapper_default := None |};
    {| col_name := "title"; col_type := String_; col_primary_key := false;
       col_auto_assigned := false; col_nullable := false;
       col_default := None; col_mapper_default := None |};
    {| col_name := "author"; col_type := String_; col_primary_key := false;
       col_auto_assigned := false; col_nullable := false;
       col_default := None; col_mapper_default := None |};
    {| col_name := "isbn"; col_type := String_; col_primary_key := false;
       col_auto_assigned := false; col_nullable := true;
       col_default := None; col_mapper_default := None |};
    {| col_name := "category"; col_type := String_; col_primary_key := false;
       col_auto_assigned := false; col_nullable := true;
       col_default := None; col_mapper_default := None |};
    {| col_name := "publication_year"; col_type := Integer;
       col_primary_key := false; col_auto_assigned := false;
       col_nullable := true; col_default := None;
       col_mapper_default := None |};
    {| col_name := "status"; col_type := String_; col_primary_key := false;
       col_auto_assigned := false; col_nullable := true;
       col_default := None; col_mapper_default := Some "available" |} ] /\
  create_table_sql Book_table
  = "CREATE TABLE books (id INTEGER NOT NULL, title VARCHAR NOT NULL, author VARCHAR NOT NULL, isbn VARCHAR, category VARCHAR, publication_year INTEGER, status VARCHAR, PRIMARY KEY (id))" /\
  (forall b : Book,
      violated_not_null b = None <-> title b <> None /\ author b <> None) /\
  (forall b : Book,
      status (apply_defaults b)
      = match status b with
        | Some s => Some s
        | None => Some "available"
        end).
Proof.
  split; [reflexivity|]. split; [reflexivity|]. split; [reflexivity|].
  split; [exact not_null_enforced|].
  intros b. destruct b as [? ? ? ? ? ? [s|]]; reflexivity.
Qed.

(** A row without status can be stored: the table accepts it, and only
    the mapper would have filled the status in. *)
Lemma C9_schema_witness :
  let b := {| id := None; title := Some "Kitab al-Manazir";
              author := Some "Ibn al-Haytham"; isbn := None;
              category := None; publication_year := None;
              status := None |} in
  title b <> None /\ author b <> None /\
  violated_not_null b = None /\
  status (apply_defaults b) = Some "available".
Proof.
  cbv zeta.
  assert (H1 : Some "Kitab al-Manazir" <> @None string) by discriminate.
  assert (H2 : Some "Ibn al-Haytham" <> @None string) by discriminate.
  split; [exact H1|]. split; [exact H2|].
  destruct C9_schema as (_ & _ & _ & Hnn & Hdef). split.
  - apply Hnn. split; [exact H1 | exact H2].
  - apply Hdef.
Defined.

End Schema.

(* ================================================================== *)
(** ** Deleting a book *)

Section Deleting.

Lemma delete_book_quiet (k : Z) (w : World) :
  quiet w ->
  delete_book k w =
  match lookup k (books w) with
  | None => (Returned false, sent (SELECT_by_id k) w)
  | Some _ =>
      (Returned true,
       set_books (without k (books w))
         (sent (DELETE k) (sent (SELECT_by_id k) w)))
  end.
Proof.
  intros Hq. rewrite delete_book_eq. cbv zeta.
  rewrite (quiet_refused w Hq).
  rewrite (quiet_refused _ (quiet_sent (SELECT_by_id k) w Hq)).
  reflexivity.
Qed.

Lemma C2_stale_listing :
  let w := scenario_before_delete in
  let r := delete_book 1 w in
  books w = [kitab] /\ quiet w /\
  fst r = Returned true /\
  books (snd r) = [] /\
  fst (get_all_books (snd r)) = Returned [book_dict kitab] /\
  fst (get_all_books (snd r)) <> Returned [].
Proof.
  cbv zeta. split; [reflexivity|]. split; [constructor|].
  split; [reflexivity|]. split; [reflexivity|].
  split; [reflexivity | discriminate].
Qed.

(** C2, as the code has it.  When the storage layer refuses nothing, [delete_book k]
    returns true and removes the record with key [k], leaving the others,
    when there is one, and returns false and leaves the table as it was
    when there is none.  In the scenario where book 1 is the only record:
    [delete_book 1] returns true and the table is empty; a listing made
    after the cache has been cleared, or when no cached snapshot is live,
    is empty; and a second [delete_book 1] returns false. *)
Theorem C2_delete_book :
  (forall (k : Z) (w : World),
      quiet w ->
      let r := delete_book k w in
      (lookup k (books w) <> None ->
       fst r = Returned true /\
       books (snd r) = without k (books w) /\
       lookup k (books (snd r)) = None /\
       forall j, j <> k -> lookup j (books (snd r)) = lookup j (books w)) /\
      (lookup k (books w) = None ->
       fst r = Returned false /\ books (snd r) = books w)) /\
  (forall (b : Book) (w : World),
      quiet w -> books w = [b] -> id b = Some 1 ->
      let r := delete_book 1 w in
      fst r = Returned true /\
      books (snd r) = [] /\
      fst (get_all_books (snd (get_all_books_clear (snd r)))) = Returned [] /\
      (live w = false -> fst (get_all_books (snd r)) = Returned []) /\
      fst (delete_book 1 (snd r)) = Returned false).
Proof.
  split.
  - intros k w Hq. cbv zeta. rewrite (delete_book_quiet k w Hq). split.
    + intros Hk. destruct (lookup k (books w)) as [b|]; [|congruence].
      cbn [fst snd]. split; [reflexivity|]. split; [reflexivity|].
      split; [apply lookup_without_same|].
      intros j Hj. apply lookup_without_other. congruence.
    + intros ->. split; reflexivity.
  - intros b w Hq Hb Hid. cbv zeta. rewrite (delete_book_quiet 1 w Hq).
    assert (Hl : lookup 1 (books w) = Some b).
    { rewrite Hb. unfold lookup. cbn. unfold has_id. rewrite Hid. reflexivity. }
    assert (Hw : without 1 (books w) = []).
    { rewrite Hb. unfold without. cbn. unfold has_id. rewrite Hid.
      reflexivity. }
    rewrite Hl, Hw. cbn [fst snd].
    set (w2 := sent (DELETE 1) (sent (SELECT_by_id 1) w)).
    assert (Hq2 : quiet w2) by (apply quiet_sent, quiet_sent, Hq).
    split; [reflexivity|]. split; [reflexivity|]. split; [|split].
    + rewrite get_all_books_miss by apply live_cleared.
      change (refused _) with (refused w2).
      rewrite (quiet_refused w2 Hq2). reflexivity.
    + intros Hlive. rewrite get_all_books_miss by exact Hlive.
      change (refused _) with (refused w2).
      rewrite (quiet_refused w2 Hq2). reflexivity.
    + rewrite delete_book_quiet by exact Hq2. reflexivity.
Qed.

Lemma C2_delete_book_witness :
  quiet kitab_world /\ books kitab_world = [kitab] /\ id kitab = Some 1 /\
  fst (delete_book 1 kitab_world) = Returned true /\
  fst (delete_book 1 (snd (delete_book 1 kitab_world))) = Returned false.
Proof.
  assert (Hq : quiet kitab_world) by constructor.
  split; [exact Hq|]. split; [reflexivity|]. split; [reflexivity|].
  pose proof (proj2 C2_delete_book kitab kitab_world Hq eq_refl eq_refl) as H.
  cbv zeta in H. split; [apply H | apply H].
Defined.

End Deleting.

Section DeletingThenListing.

Lemma delete_book_keeps_cache (k : Z) (w : World) :
  cache (snd (delete_book k w)) = cache w /\
  clock (snd (delete_book k w)) = clock w.
Proof.
  rewrite delete_book_eq. cbv zeta.
  destruct (refused w); [split; reflexivity|].
  destruct (lookup k (books w)); [|split; reflexivity].
  destruct (refused _); split; reflexivity.
Qed.

(** What a listing returns depends on the cache, the clock, the table and
    the oracle only. *)
Lemma get_all_books_result (w w' : World) :
  cache w' = cache w -> clock w' = clock w -> books w' = books w ->
  refused w' = refused w ->
  fst (get_all_books w') = fst (get_all_books w).
Proof.
  intros Hc Ht Hb Hr.
  destruct (live w) eqn:Hl.
  - unfold live in Hl. destruct (cache w) as [[stored v]|] eqn:Hcw;
      [|discriminate].
    apply Z.ltb_lt in Hl.
    rewrite (get_all_books_hit w stored v Hcw Hl).
    rewrite (get_all_books_hit w' stored v); [reflexivity|congruence|lia].
  - assert (Hl' : live w' = false) by (unfold live in *; now rewrite Hc, Ht).
    rewrite (get_all_books_miss w Hl), (get_all_books_miss w' Hl').
    rewrite Hr, Hb. destruct (refused w); reflexivity.
Qed.

Lemma delete_book_call_fits (k : Z) (w : World) :
  fits_int64 k = true -> delete_book_call k w = delete_book k w.
Proof.
  intros H. unfold delete_book_call, sqlite_int, bind. rewrite H. reflexivity.
Qed.


(** C4.  When the storage layer refuses nothing and a record with key [k]
    exists, [delete_book k] returns true and the listing made after the
    cache has been cleared is the earlier table without that record: no
    row of it carries key [k].  When no record has key [k], [k] being an
    integer that fits the 64 bits of a key, then whichever statements the
    storage layer refuses, the call returns false and leaves the table
    and the cached snapshot as they were; when the storage layer refuses
    nothing, the next listing returns what it would have returned. *)
Theorem C4_delete_then_list :
  (forall (k : Z) (w : World),
      quiet w -> In k (ids (books w)) ->
      let r1 := delete_book k w in
      let r2 := get_all_books_clear (snd r1) in
      let r3 := get_all_books (snd r2) in
      fst r1 = Returned true /\
      fst r3 = Returned (snapshot (without k (books w))) /\
      ~ shows_id k (snapshot (without k (books w)))) /\
  (forall (k : Z) (w : World),
      fits_int64 k = true -> ~ In k (ids (books w)) ->
      let r := delete_book_call k w in
      fst r = Returned false /\
      books (snd r) = books w /\
      cache (snd r) = cache w /\
      (quiet w -> fst (get_all_books (snd r)) = fst (get_all_books w))).
Proof.
  split.
  - intros k w Hq Hk. cbv zeta. apply lookup_ids in Hk.
    rewrite (delete_book_quiet k w Hq).
    destruct (lookup k (books w)) as [b|]; [|congruence]. cbn [fst snd].
    split; [reflexivity|]. split.
    + rewrite get_all_books_miss by apply live_cleared.
      set (w2 := sent (DELETE k) (sent (SELECT_by_id k) w)).
      assert (Hq2 : quiet w2) by (apply quiet_sent, quiet_sent, Hq).
      change (refused _) with (refused w2).
      rewrite (quiet_refused w2 Hq2). reflexivity.
    + rewrite snapshot_shows_id. apply ids_without.
  - intros k w Hfit Hk. cbv zeta. rewrite (delete_book_call_fits k w Hfit).
    assert (Hn : lookup k (books w) = None).
    { destruct (lookup k (books w)) eqn:E; [|reflexivity].
      exfalso. apply Hk, lookup_ids. congruence. }
    destruct (delete_book_keeps_cache k w) as [Hc Ht].
    assert (Hr : fst (delete_book k w) = Returned false /\
                 books (snd (delete_book k w)) = books w).
    { rewrite delete_book_eq. cbv zeta. rewrite Hn.
      destruct (refused w); split; reflexivity. }
    destruct Hr as [Hr Hb]. repeat split; try assumption.
    intros Hq. apply get_all_books_result; try assumption.
    rewrite (delete_book_quiet k w Hq), Hn. cbn [snd].
    rewrite (quiet_refused w Hq).
    apply quiet_refused, quiet_sent, Hq.
Qed.

Lemma C4_delete_then_list_witness :
  quiet kitab_world /\ In 1 (ids (books kitab_world)) /\
  fits_int64 2 = true /\ ~ In 2 (ids (books kitab_world)) /\
  fst (get_all_books
         (snd (get_all_books_clear (snd (delete_book 1 kitab_world)))))
  = Returned [] /\
  fst (delete_book_call 2 kitab_world) = Returned false.
Proof.
  assert (Hq : quiet kitab_world) by constructor.
  assert (H1 : In 1 (ids (books kitab_world))) by (left; reflexivity).
  assert (H2 : ~ In 2 (ids (books kitab_world))).
  { intros [H|[]]. discriminate H. }
  split; [exact Hq|]. split; [exact H1|]. split; [reflexivity|].
  split; [exact H2|]. split.
  - exact (proj1 (proj2 (proj1 C4_delete_then_list 1 kitab_world Hq H1))).
  - exact (proj1 (proj2 C4_delete_then_list 2 kitab_world eq_refl H2)).
Defined.

End DeletingThenListing.

(* ================================================================== *)
(** ** Listing *)

Section Listing.

Lemma live_cache (w : World) :
  live w = true ->
  exists stored v, cache w = Some (stored, v) /\ clock w < stored + 60.
Proof.
  unfold live. destruct (cache w) as [[stored v]|]; [|discriminate].
  intros H. apply Z.ltb_lt in H. now exists stored, v.
Qed.

(** A transient storage error is cached like any other result: the
    listing that follows is served the empty frame although a record
    exists and the storage layer refuses nothing any more. *)
Lemma C5_cached_error :
  let w := locked_once kitab_world in
  let r1 := get_all_books w in
  let r2 := get_all_books (snd r1) in
  fst r1 = Returned [] /\
  books (snd r1) = [kitab] /\ quiet (snd r1) /\
  fst r2 = Returned [] /\
  fst r2 <> Returned (snapshot (books (snd r1))).
Proof.
  cbv zeta. split; [reflexivity|]. split; [reflexivity|].
  split; [constructor|]. split; [reflexivity | discriminate].
Qed.

(** A record added without clearing the cache is not listed either. *)
Example stale_after_add :
  let w := calls [ Call_list;
                   Call_add (Some "Kitab al-Manazir") (Some "Ibn al-Haytham")
                     (Some "") (Some "Science") (Some 1021) ] fresh_world in
  books w = [kitab] /\ quiet w /\ fst (get_all_books w) = Returned [].
Proof. cbv zeta. split; [reflexivity|]. split; [constructor | reflexivity]. Qed.

(** C5, as the code has it.  [get_all_books] has no argument, always returns a frame
    and never raises, and leaves the table as it is.  While a cached
    snapshot younger than 60 time units is held, it returns that snapshot
    and sends nothing to the storage layer.  Otherwise it sends exactly one
    SELECT: when the storage layer accepts it, the result is the snapshot
    of all current records in the order of the table, nothing being sorted
    (so the empty frame when there is no record); when the storage layer
    refuses it, the error is shown and the result is the empty frame; the
    SELECT is not sent again; and what was returned is cached. *)
Theorem C5_list (w : World) :
  let r := get_all_books w in
  (exists df, fst r = Returned df) /\
  books (snd r) = books w /\
  match live w with
  | true =>
      exists stored v, cache w = Some (stored, v) /\ r = (Returned v, w)
  | false =>
      statements (snd r) = (statements w ++ [SELECT_all])%list /\
      match refused w with
      | None =>
          fst r = Returned (map book_dict (books w)) /\
          page (snd r) = page w /\
          cache (snd r) = Some (clock w, map book_dict (books w))
      | Some m =>
          fst r = Returned [] /\
          page (snd r)
          = (page w ++ [ElError ("Error retrieving books: " ++ m)])%list /\
          cache (snd r) = Some (clock w, [])
      end /\
      (books w = [] -> fst r = Returned [])
  end.
Proof.
  cbv zeta. destruct (live w) eqn:Hl.
  - destruct (live_cache w Hl) as (stored & v & Hc & Ht).
    rewrite (get_all_books_hit w stored v Hc Ht). cbn [fst snd].
    split; [now exists v|]. split; [reflexivity|]. now exists stored, v.
  - rewrite (get_all_books_miss w Hl).
    destruct (refused w) as [m|]; cbn [fst snd].
    + split; [now eexists|]. repeat split.
    + split; [now eexists|]. repeat split. intros ->. reflexivity.
Qed.

Lemma C5_list_witness :
  books fresh_world = [] /\ fst (get_all_books fresh_world) = Returned [].
Proof.
  split; [reflexivity|].
  pose proof (C5_list fresh_world) as H. cbv zeta in H.
  destruct H as (_ & _ & H).
  change (live fresh_world) with false in H.
  exact (proj2 (proj2 H) eq_refl).
Defined.

End Listing.

(* ================================================================== *)
(** ** The cache window *)

Section CacheWindow.

Lemma add_book_keeps_cache (t a i c : option string) (y : option Z)
    (w : World) :
  cache (snd (add_book t a i c y w)) = cache w /\
  clock (snd (add_book t a i c y w)) = clock w.
Proof.
  rewrite add_book_eq. cbv zeta.
  destruct (refused w); [split; reflexivity|].
  destruct t, a; split; reflexivity.
Qed.

Lemma get_all_books_keeps_clock (w : World) :
  clock (snd (get_all_books w)) = clock w.
Proof.
  destruct (live w) eqn:Hl.
  - destruct (live_cache w Hl) as (stored & v & Hc & Ht).
    now rewrite (get_all_books_hit w stored v Hc Ht).
  - rewrite (get_all_books_miss w Hl). destruct (refused w); reflexivity.
Qed.

Lemma get_all_books_keeps_books (w : World) :
  books (snd (get_all_books w)) = books w.
Proof.
  destruct (live w) eqn:Hl.
  - destruct (live_cache w Hl) as (stored & v & Hc & Ht).
    now rewrite (get_all_books_hit w stored v Hc Ht).
  - rewrite (get_all_books_miss w Hl). destruct (refused w); reflexivity.
Qed.

Lemma clock_call (c : Call) (w : World) :
  waits_forward [c] = true -> clock w <= clock (call c w).
Proof.
  destruct c as [t a i c y| |k| |d]; cbn; unfold world_after.
  - intros _. destruct (add_book_keeps_cache t a i c y w) as [_ ->]. lia.
  - intros _. rewrite get_all_books_keeps_clock. lia.
  - intros _. destruct (delete_book_keeps_cache k w) as [_ ->]. lia.
  - intros _. lia.
  - rewrite andb_true_r. intros H. apply Z.leb_le in H. lia.
Qed.

Lemma clock_calls (cs : list Call) (w : World) :
  waits_forward cs = true -> clock w <= clock (calls cs w).
Proof.
  revert w. induction cs as [|c cs IH]; intros w H; cbn in *; [lia|].
  apply andb_true_iff in H as [Hc Hcs].
  specialize (IH (call c w) Hcs).
  assert (clock w <= clock (call c w)).
  { apply clock_call. cbn. now rewrite Hc. }
  fold (calls cs (call c w)) in *. lia.
Qed.

(** An entry that is still young at the end of a sequence of calls without
    clearing was served, untouched, all along. *)
Lemma calls_keep_entry (cs : list Call) (w : World) (stored : Z)
    (v : DataFrame) :
  cache w = Some (stored, v) ->
  no_clear cs = true -> waits_forward cs = true ->
  clock (calls cs w) < stored + 60 ->
  cache (calls cs w) = Some (stored, v).
Proof.
  revert w. induction cs as [|c cs IH]; intros w Hc Hn Hw Ht; cbn in *.
  - exact Hc.
  - apply andb_true_iff in Hn as [Hn1 Hn]. apply andb_true_iff in Hw as [Hw1 Hw].
    fold (calls cs (call c w)) in *.
    pose proof (clock_calls cs (call c w) Hw) as Hmono.
    assert (H1 : clock w <= clock (call c w)).
    { apply clock_call. cbn. now rewrite Hw1. }
    apply IH; try assumption.
    destruct c as [t a i c y| |k| |d]; cbn; unfold world_after.
    + destruct (add_book_keeps_cache t a i c y w) as [-> _]. exact Hc.
    + rewrite (get_all_books_hit w stored v Hc); [exact Hc | lia].
    + destruct (delete_book_keeps_cache k w) as [-> _]. exact Hc.
    + discriminate Hn1.
    + exact Hc.
Qed.

(** After a listing the cache holds what the listing returned. *)
Lemma listing_is_cached (w : World) :
  exists stored v,
    cache (snd (get_all_books w)) = Some (stored, v) /\
    fst (get_all_books w) = Returned v /\
    (live w = false -> stored = clock w).
Proof.
  destruct (live w) eqn:Hl.
  - destruct (live_cache w Hl) as (stored & v & Hc & Ht).
    rewrite (get_all_books_hit w stored v Hc Ht).
    exists stored, v. repeat split; [assumption | discriminate].
  - rewrite (get_all_books_miss w Hl).
    destruct (refused w); eexists; eexists; repeat split.
Qed.

(** The window is counted from the time the snapshot was computed, not
    from the call that last returned it.  A listing at time 0 caches the
    empty frame; a book is added and the cache is not cleared; the listings
    at times 50 and 80 are 30 time units apart with nothing in between,
    and differ. *)
Lemma C6_window_from_computation :
  let w := calls [ Call_list;
                   Call_add (Some "Kitab al-Manazir") (Some "Ibn al-Haytham")
                     (Some "") (Some "Science") (Some 1021);
                   Wait 50 ] fresh_world in
  let r1 := get_all_books w in
  let w' := calls [ Wait 30 ] (snd r1) in
  let r2 := get_all_books w' in
  clock w' - clock w = 30 /\
  fst r1 = Returned [] /\
  fst r2 = Returned [book_dict kitab] /\
  fst r2 <> fst r1.
Proof.
  cbv zeta. split; [reflexivity|]. split; [reflexivity|].
  split; [reflexivity | discriminate].
Qed.

(** The same with no mutation at all and every successful mutation
    followed by a clearing: the listing at time 0 meets a storage error. *)
Example window_after_cached_error :
  let w := calls [ Call_list; Wait 50 ] (locked_once kitab_world) in
  let r1 := get_all_books w in
  let r2 := get_all_books (calls [ Wait 30 ] (snd r1)) in
  fst r1 = Returned [] /\ fst r2 = Returned [book_dict kitab].
Proof. cbv zeta. split; reflexivity. Qed.

(** C6, as the code has it.  After a listing the cache holds the snapshot it
    returned, with the time it was computed.  Whatever the calls that
    follow (additions and deletions included), as long as none clears the
    cache and time does not run backwards, a listing made less than 60
    time units after that time returns the identical snapshot, and it is
    served from the cache: nothing is sent to the storage layer and the
    world is left as it is.  When the first listing itself computed its
    snapshot, that time is the time of the first listing. *)
Theorem C6_cache_window :
  (forall (w : World),
      exists stored v,
        cache (snd (get_all_books w)) = Some (stored, v) /\
        fst (get_all_books w) = Returned v) /\
  (forall (w : World) (cs : list Call) (stored : Z) (v : DataFrame),
      let r1 := get_all_books w in
      let w' := calls cs (snd r1) in
      cache (snd r1) = Some (stored, v) ->
      no_clear cs = true -> waits_forward cs = true ->
      clock w' < stored + 60 ->
      get_all_books w' = (fst r1, w')) /\
  (forall (w : World) (cs : list Call),
      let r1 := get_all_books w in
      let w' := calls cs (snd r1) in
      live w = false ->
      no_clear cs = true -> waits_forward cs = true ->
      clock w' < clock w + 60 ->
      get_all_books w' = (fst r1, w')).
Proof.
  assert (A : forall (w : World) (cs : list Call) (stored : Z) (v : DataFrame),
             cache (snd (get_all_books w)) = Some (stored, v) ->
             no_clear cs = true -> waits_forward cs = true ->
             clock (calls cs (snd (get_all_books w))) < stored + 60 ->
             get_all_books (calls cs (snd (get_all_books w)))
             = (fst (get_all_books w), calls cs (snd (get_all_books w)))).
  { intros w cs stored v Hc Hn Hw Ht.
    destruct (listing_is_cached w) as (stored' & v' & Hc' & Hv & _).
    rewrite Hc in Hc'. injection Hc' as <- <-.
    rewrite Hv. apply (get_all_books_hit _ stored v); [|exact Ht].
    now apply calls_keep_entry. }
  split; [|split].
  - intros w. destruct (listing_is_cached w) as (stored & v & Hc & Hv & _).
    now exists stored, v.
  - intros w cs stored v. cbv zeta. apply A.
  - intros w cs. cbv zeta. intros Hl Hn Hw Ht.
    destruct (listing_is_cached w) as (stored & v & Hc & _ & Hs).
    apply (A w cs stored v); try assumption.
    rewrite (Hs Hl). exact Ht.
Qed.

Lemma C6_cache_window_witness :
  let cs := [ Call_add (Some "Kitab al-Manazir") (Some "Ibn al-Haytham")
                (Some "") (Some "Science") (Some 1021);
              Wait 59 ] in
  let w' := calls cs (snd (get_all_books fresh_world)) in
  live fresh_world = false /\ no_clear cs = true /\
  waits_forward cs = true /\ clock w' < clock fresh_world + 60 /\
  books w' = [kitab] /\
  get_all_books w' = (Returned [], w').
Proof.
  cbv zeta.
  split; [reflexivity|]. split; [reflexivity|]. split; [reflexivity|].
  split; [reflexivity|]. split; [reflexivity|].
  exact (proj2 (proj2 C6_cache_window) fresh_world
           [ Call_add (Some "Kitab al-Manazir") (Some "Ibn al-Haytham")
               (Some "") (Some "Science") (Some 1021);
             Wait 59 ]
           eq_refl eq_refl eq_refl eq_refl).
Defined.

End CacheWindow.

(* ================================================================== *)
(** ** Clearing the cache *)

Section Clearing.

Lemma get_all_books_keeps_quiet (w : World) :
  quiet w ->
  quiet (snd (get_all_books w)) /\
  books (snd (get_all_books w)) = books w.
Proof.
  intros Hq. destruct (live w) eqn:Hl.
  - destruct (live_cache w Hl) as (stored & v & Hc & Ht).
    rewrite (get_all_books_hit w stored v Hc Ht). now split.
  - rewrite (get_all_books_miss w Hl), (quiet_refused w Hq). split.
    + apply (quiet_sent SELECT_all w Hq).
    + reflexivity.
Qed.

Lemma listing_after_clear (w : World) :
  cache w = None -> quiet w ->
  fst (get_all_books w) = Returned (snapshot (books w)).
Proof.
  intros Hc Hq. rewrite get_all_books_miss by (unfold live; now rewrite Hc).
  now rewrite (quiet_refused w Hq).
Qed.

End Clearing.

(** Opening of a run of the script, down to the page chosen in the menu. *)
Ltac open_page Hm E :=
  unfold main in E; rewrite Hm in E;
  unfold st_title, st_header, st_dataframe, modify, bind in E.

Section ScriptRun.

Variables (ui : Widgets) (w : World).
Hypothesis storage_quiet : quiet w.

(** One run of the script on the page "Add Book", the form being sent with
    a title and an author that are not blank. *)
Lemma main_add :
  menu ui = Add_Book -> add_submitted ui = true ->
  truthy (strip (title_input ui)) && truthy (strip (author_input ui)) = true ->
  let w' := snd (main ui w) in
  books w' =
    (books w ++
     [stored_book (books w) (Some (title_input ui)) (Some (author_input ui))
        (Some (isbn_input ui)) (Some (category_input ui))
        (Some (publication_year_input ui))])%list /\
  cache w' = None /\ quiet w'.
Proof.
  intros Hm Hs Hv. cbv zeta.
  remember (main ui w) as r eqn:E.
  open_page Hm E. rewrite Hs, Hv in E.
  rewrite add_book_eq in E. cbv zeta in E.
  set (w0 := emit _ (emit _ w)) in E.
  assert (Hq0 : quiet w0) by exact storage_quiet.
  rewrite (quiet_refused w0 Hq0) in E. subst r.
  split; [reflexivity|]. split; [reflexivity|].
  apply (quiet_sent (INSERT (apply_defaults (Book_init None None None None None)))
           w storage_quiet).
Qed.

(** One run of the script on the page "Delete Book", the form being sent
    with the key of a record, the frame shown above the form not being
    empty. *)
Lemma main_delete (df : DataFrame) :
  menu ui = Delete_Book -> delete_submitted ui = true ->
  fst (get_all_books w) = Returned df -> empty df = false ->
  In (book_id_input ui) (ids (books w)) ->
  let w' := snd (main ui w) in
  books w' = without (book_id_input ui) (books w) /\
  cache w' = None /\ quiet w'.
Proof.
  intros Hm Hs Hdf Hne Hk. cbv zeta.
  remember (main ui w) as r eqn:E.
  open_page Hm E. rewrite Hs in E.
  set (w0 := emit _ (emit _ w)) in E.
  assert (Hq0 : quiet w0) by exact storage_quiet.
  assert (Hdf0 : fst (get_all_books w0) = Returned df).
  { rewrite <- Hdf. apply get_all_books_result; reflexivity. }
  destruct (get_all_books_keeps_quiet w0 Hq0) as [Hq1 Hb1].
  destruct (get_all_books w0) as [o w1]. cbn [fst snd] in *. subst o.
  rewrite Hne in E. cbn [negb] in E.
  set (w2 := emit _ w1) in E.
  assert (Hq2 : quiet w2) by exact Hq1.
  assert (Hb2 : books w2 = books w) by exact Hb1.
  rewrite (delete_book_quiet _ w2 Hq2), Hb2 in E.
  apply lookup_ids in Hk.
  destruct (lookup (book_id_input ui) (books w)); [|congruence].
  subst r.
  split; [reflexivity|]. split; [reflexivity|].
  apply (quiet_sent (DELETE 0) _ (quiet_sent (SELECT_by_id 0) w2 Hq2)).
Qed.

End ScriptRun.

Section Invalidation.

(** C7.  A listing made right after the cache has been cleared sends a
    SELECT and returns what the storage layer holds, whatever was cached
    before.  The script clears the cache at the end of every run in which
    [add_book] or [delete_book] succeeded, so the listing of the next run
    shows the table as the mutation left it. *)
Theorem C7_invalidation :
  (forall (w : World),
      let r := get_all_books (snd (get_all_books_clear w)) in
      statements (snd r) = (statements w ++ [SELECT_all])%list /\
      fst r = match refused w with
              | None => Returned (snapshot (books w))
              | Some _ => Returned []
              end) /\
  (forall (ui : Widgets) (w : World),
      menu ui = Add_Book -> add_submitted ui = true ->
      truthy (strip (title_input ui)) && truthy (strip (author_input ui))
      = true ->
      quiet w ->
      let w' := snd (main ui w) in
      cache w' = None /\
      books w' =
        (books w ++
         [stored_book (books w) (Some (title_input ui))
            (Some (author_input ui)) (Some (isbn_input ui))
            (Some (category_input ui))
            (Some (publication_year_input ui))])%list /\
      fst (get_all_books w') = Returned (snapshot (books w'))) /\
  (forall (ui : Widgets) (w : World) (df : DataFrame),
      menu ui = Delete_Book -> delete_submitted ui = true ->
      quiet w ->
      fst (get_all_books w) = Returned df -> empty df = false ->
      In (book_id_input ui) (ids (books w)) ->
      let w' := snd (main ui w) in
      cache w' = None /\
      books w' = without (book_id_input ui) (books w) /\
      fst (get_all_books w') = Returned (snapshot (books w'))).
Proof.
  split; [|split].
  - intros w. cbv zeta. unfold get_all_books_clear, modify. cbn [snd].
    rewrite get_all_books_miss by apply live_cleared.
    change (refused (set_cache None w)) with (refused w).
    destruct (refused w); split; reflexivity.
  - intros ui w Hm Hs Hv Hq.
    destruct (main_add ui w Hq Hm Hs Hv) as (Hb & Hc & Hq').
    cbv zeta. split; [exact Hc|]. split; [exact Hb|].
    now apply listing_after_clear.
  - intros ui w df Hm Hs Hq Hdf Hne Hk.
    destruct (main_delete ui w Hq df Hm Hs Hdf Hne Hk) as (Hb & Hc & Hq').
    cbv zeta. split; [exact Hc|]. split; [exact Hb|].
    now apply listing_after_clear.
Qed.

End Invalidation.

Lemma C7_invalidation_witness :
  menu add_kitab_form = Add_Book /\ add_submitted add_kitab_form = true /\
  truthy (strip (title_input add_kitab_form))
  && truthy (strip (author_input add_kitab_form)) = true /\
  quiet fresh_world /\
  cache (snd (main add_kitab_form fresh_world)) = None /\
  fst (get_all_books (snd (main add_kitab_form fresh_world)))
  = Returned [book_dict kitab].
Proof.
  assert (Hq : quiet fresh_world) by constructor.
  split; [reflexivity|]. split; [reflexivity|]. split; [reflexivity|].
  split; [exact Hq|].
  pose proof (proj1 (proj2 C7_invalidation) add_kitab_form fresh_world
                eq_refl eq_refl eq_refl Hq) as H.
  cbv zeta in H. split; [apply H | apply H].
Defined.

(** A run in which [add_book] fails leaves the cache as it is. *)
Example main_add_refused :
  let w := snd (get_all_books kitab_world) in
  cache (snd (main add_kitab_form (locked_once w))) = cache w /\
  cache w = Some (0, [book_dict kitab]).
Proof. split; reflexivity. Qed.

(* ================================================================== *)
(** ** The status of a record *)

Section Status.

(** What one call does to the table. *)
Lemma call_books (c : Call) (w : World) :
  books (call c w) = books w \/
  (exists t a i g y,
      c = Call_add t a i g y /\
      books (call c w) = (books w ++ [stored_book (books w) t a i g y])%list) \/
  (exists k, c = Call_delete k /\ books (call c w) = without k (books w)).
Proof.
  destruct c as [t a i g y| |k| |d]; cbn; unfold world_after.
  - rewrite add_book_eq. cbv zeta. destruct (refused w); [now left|].
    destruct t, a; try (now left).
    right; left. now eexists _, _, i, g, y.
  - left. apply get_all_books_keeps_books.
  - rewrite delete_book_eq. cbv zeta. destruct (refused w); [now left|].
    destruct (lookup k (books w)); [|now left].
    destruct (refused _); [now left|]. right; right. now exists k.
  - now left.
  - now left.
Qed.

Lemma call_lookup (c : Call) (w : World) (k : Z) :
  lookup k (books w) <> None -> lookup k (books (call c w)) <> None ->
  lookup k (books (call c w)) = lookup k (books w).
Proof.
  intros H0 H1.
  destruct (call_books c w) as [E|[(t & a & i & g & y & _ & E)|(j & _ & E)]];
    rewrite E in *.
  - reflexivity.
  - now apply lookup_app_new.
  - destruct (Z.eq_dec j k) as [->|Hjk].
    + now rewrite lookup_without_same in H1.
    + now apply lookup_without_other.
Qed.

Lemma survives_lookup (k : Z) (cs : list Call) (w : World) :
  survives k cs w = true -> lookup k (books w) <> None.
Proof. destruct cs; cbn; destruct (lookup k (books w)); congruence. Qed.

Lemma survives_same_record (k : Z) (cs : list Call) (w : World) :
  survives k cs w = true ->
  lookup k (books (calls cs w)) = lookup k (books w).
Proof.
  revert w. induction cs as [|c cs IH]; intros w H; [reflexivity|].
  pose proof (survives_lookup k _ w H) as H0.
  cbn in H. destruct (lookup k (books w)) eqn:E; [|discriminate].
  cbn. fold (calls cs (call c w)). rewrite (IH _ H).
  rewrite <- E. apply call_lookup; [congruence|].
  now apply survives_lookup with (cs := cs).
Qed.

Lemma call_available (c : Call) (w : World) :
  Forall available (books w) -> Forall available (books (call c w)).
Proof.
  intros H.
  destruct (call_books c w) as [E|[(t & a & i & g & y & _ & E)|(j & _ & E)]];
    rewrite E.
  - exact H.
  - apply Forall_app. split; [exact H|]. constructor; [reflexivity|constructor].
  - unfold without. rewrite Forall_forall in *. intros b Hb.
    apply filter_In in Hb as [Hb _]. now apply H.
Qed.

(** C8.  A record is created with status "available": a call of
    [add_book] leaves the table as it is or appends one record whose
    status is "available".  No sequence of additions, listings, deletions,
    cache clearings and waits changes a record for as long as it exists:
    the record found under its key after the calls is the record found
    before them, so its status is the same.  Hence a table whose records
    are all "available" stays so. *)
Theorem C8_status :
  (forall (t a i g : option string) (y : option Z) (w : World),
      let w' := call (Call_add t a i g y) w in
      books w' = books w \/
      exists b, books w' = (books w ++ [b])%list /\
                status b = Some "available" /\
                id b = Some (next_rowid (books w))) /\
  (forall (k : Z) (cs : list Call) (w : World),
      survives k cs w = true ->
      lookup k (books (calls cs w)) = lookup k (books w) /\
      option_map status (lookup k (books (calls cs w)))
      = option_map status (lookup k (books w))) /\
  (forall (cs : list Call) (w : World),
      Forall available (books w) -> Forall available (books (calls cs w))).
Proof.
  split; [|split].
  - intros t a i g y w. cbv zeta.
    destruct (call_books (Call_add t a i g y) w)
      as [E|[(t' & a' & i' & g' & y' & _ & E)|(j & Hc & _)]].
    + now left.
    + right. eexists. split; [exact E|]. split; reflexivity.
    + discriminate Hc.
  - intros k cs w H. rewrite (survives_same_record k cs w H). now split.
  - intros cs. induction cs as [|c cs IH]; intros w H; [exact H|].
    cbn. apply IH. now apply call_available.
Qed.

End Status.

Lemma C8_status_witness :
  let cs := [ Call_add (Some "Al-Qanun fi al-Tibb") (Some "Ibn Sina") (Some "")
                (Some "Science") (Some 1025);
              Call_list; Call_delete 2; Call_clear; Wait 5; Call_list ] in
  survives 1 cs kitab_world = true /\
  option_map status (lookup 1 (books (calls cs kitab_world)))
  = Some (Some "available").
Proof.
  cbv zeta. split; [reflexivity|].
  exact (proj2 (proj1 (proj2 C8_status) 1
                  [ Call_add (Some "Al-Qanun fi al-Tibb") (Some "Ibn Sina")
                      (Some "") (Some "Science") (Some 1025);
                    Call_list; Call_delete 2; Call_clear; Wait 5; Call_list ]
                  kitab_world eq_refl)).
Defined.

(* ================================================================== *)
(** ** Further properties of the service functions *)

Section ServiceErrors.

(** [delete_book] when the storage layer fails.  If it refuses the SELECT,
    or accepts it, a record is found, and it refuses the DELETE, then
    [delete_book] returns false, the table is as it was (the transaction
    is rolled back), the cache is untouched and the page shows the
    error. *)
Theorem delete_book_storage_error (k : Z) (w : World) (m : string) :
  refused w = Some m \/
  (refused w = None /\ In k (ids (books w)) /\
   refused (sent (SELECT_by_id k) w) = Some m) ->
  let r := delete_book k w in
  fst r = Returned false /\
  books (snd r) = books w /\
  cache (snd r) = cache w /\
  page (snd r) = (page w ++ [ElError ("Error deleting book: " ++ m)])%list.
Proof.
  intros H. cbv zeta. rewrite delete_book_eq. cbv zeta.
  destruct H as [H|(H0 & Hk & H1)].
  - rewrite H. repeat split.
  - rewrite H0. apply lookup_ids in Hk.
    destruct (lookup k (books w)); [|congruence].
    rewrite H1. repeat split.
Qed.

Lemma delete_book_storage_error_witness :
  let w := set_faults [None; Some "database is locked"] kitab_world in
  refused w = None /\ In 1 (ids (books w)) /\
  refused (sent (SELECT_by_id 1) w) = Some "database is locked" /\
  fst (delete_book 1 w) = Returned false /\
  books (snd (delete_book 1 w)) = [kitab].
Proof.
  cbv zeta.
  assert (H1 : In 1 (ids (books (set_faults [None; Some "database is locked"]
                                    kitab_world)))) by (left; reflexivity).
  split; [reflexivity|]. split; [exact H1|]. split; [reflexivity|].
  pose proof (delete_book_storage_error 1
                (set_faults [None; Some "database is locked"] kitab_world)
                "database is locked"
                (or_intror (conj eq_refl (conj H1 eq_refl)))) as H.
  cbv zeta in H. split; [apply H | apply H].
Defined.

(** What the two mutations send, and what they leave alone.  [add_book]
    sends exactly one INSERT, accepted or not.  [delete_book] sends one
    SELECT by key, followed by one DELETE only when that SELECT was
    accepted and found a record.  Nothing is sent twice, and neither
    function touches the cache or the clock: clearing is left to the
    caller. *)
Theorem mutations_send_once (t a i c : option string) (y : option Z)
    (k : Z) (w : World) :
  let ra := add_book t a i c y w in
  let rd := delete_book k w in
  statements (snd ra)
  = (statements w ++
     [INSERT {| id := None; title := t; author := a; isbn := i;
                category := c; publication_year := y;
                status := Some "available" |}])%list /\
  statements (snd rd)
  = (statements w ++
     SELECT_by_id k ::
     match refused w, lookup k (books w) with
     | None, Some _ => [DELETE k]
     | _, _ => []
     end)%list /\
  cache (snd ra) = cache w /\ clock (snd ra) = clock w /\
  cache (snd rd) = cache w /\ clock (snd rd) = clock w.
Proof.
  cbv zeta. split; [|split].
  - rewrite add_book_eq. cbv zeta. destruct (refused w); [reflexivity|].
    destruct t, a; reflexivity.
  - rewrite delete_book_eq. cbv zeta. destruct (refused w); [reflexivity|].
    destruct (lookup k (books w)); [|reflexivity].
    destruct (refused _); cbn; now rewrite <- app_assoc.
  - destruct (add_book_keeps_cache t a i c y w) as [-> ->].
    destruct (delete_book_keeps_cache k w) as [-> ->]. repeat split.
Qed.

End ServiceErrors.

Section KeysOfTheTable.

Lemma ids_cons (b : Book) (bs : list Book) :
  ids (b :: bs) = match id b with
                  | Some j => j :: ids bs
                  | None => ids bs
                  end.
Proof. unfold ids. cbn. destruct (id b); reflexivity. Qed.

Lemma ids_app (bs cs : list Book) : ids (bs ++ cs) = (ids bs ++ ids cs)%list.
Proof. unfold ids. apply flat_map_app. Qed.

Lemma without_cons (k : Z) (b : Book) (bs : list Book) :
  without k (b :: bs) = if has_id k b then without k bs else b :: without k bs.
Proof. unfold without. cbn. destruct (has_id k b); reflexivity. Qed.

Lemma without_keeps (k : Z) (bs : list Book) :
  ~ In k (ids bs) -> without k bs = bs.
Proof.
  induction bs as [|b bs IH]; [reflexivity|].
  rewrite ids_cons, without_cons. intros H.
  destruct (has_id k b) eqn:Hk.
  - apply has_id_true in Hk. rewrite Hk in H. exfalso. apply H. now left.
  - rewrite IH; [reflexivity|]. intros Hin. apply H.
    destruct (id b); [now right | exact Hin].
Qed.

Lemma lookup_absent (k : Z) (bs : list Book) :
  ~ In k (ids bs) -> lookup k bs = None.
Proof.
  intros H. destruct (lookup k bs) eqn:E; [|reflexivity].
  exfalso. apply H, lookup_ids. congruence.
Qed.

Lemma lookup_appended (k : Z) (bs : list Book) (b : Book) :
  ~ In k (ids bs) -> id b = Some k -> lookup k (bs ++ [b]) = Some b.
Proof.
  intros Hk Hb. apply lookup_absent in Hk. unfold lookup in *.
  induction bs as [|a bs IH]; cbn in *.
  - apply has_id_true in Hb. now rewrite Hb.
  - destruct (has_id k a); [discriminate | now apply IH].
Qed.

Lemma ids_without_incl (k j : Z) (bs : list Book) :
  In j (ids (without k bs)) -> In j (ids bs).
Proof.
  rewrite !ids_In. intros (b & Hb & Hid). unfold without in Hb.
  apply filter_In in Hb as [Hb _]. now exists b.
Qed.

Lemma NoDup_ids_without (k : Z) (bs : list Book) :
  NoDup (ids bs) -> NoDup (ids (without k bs)).
Proof.
  induction bs as [|b bs IH]; [trivial|].
  rewrite ids_cons, without_cons. intros H.
  assert (Hbs : NoDup (ids bs)).
  { destruct (id b); [now inversion H | exact H]. }
  destruct (has_id k b); [now apply IH|].
  rewrite ids_cons. destruct (id b) as [j|]; [|now apply IH].
  inversion H as [|? ? Hnot _]; subst.
  constructor; [|now apply IH].
  intros Hin. apply Hnot. now apply ids_without_incl in Hin.
Qed.

Lemma table_change_keyed (bs bs' : list Book) :
  table_change bs bs' -> keyed bs -> keyed bs'.
Proof.
  intros [->|[(t & a & i & g & y & ->)|(k & ->)]] [Hid Hnd]; [now split| |].
  - split.
    + apply Forall_app. split; [exact Hid|].
      constructor; [discriminate | constructor].
    + rewrite ids_app. cbn. apply NoDup_app.
      * exact Hnd.
      * repeat constructor. intros [].
      * intros x Hx [<-|[]]. now apply (next_rowid_fresh bs).
  - split.
    + unfold without. rewrite Forall_forall in *. intros b Hb.
      apply filter_In in Hb as [Hb _]. now apply Hid.
    + now apply NoDup_ids_without.
Qed.

Lemma call_table_change (c : Call) (w : World) :
  table_change (books w) (books (call c w)).
Proof.
  destruct (call_books c w) as [E|[(t & a & i & g & y & _ & E)|(j & _ & E)]].
  - now left.
  - right; left. rewrite E. now exists t, a, i, g, y.
  - right; right. now exists j.
Qed.

Lemma without_length (k : Z) (bs : list Book) :
  keyed bs -> In k (ids bs) ->
  (List.length (without k bs) + 1 = List.length bs)%nat.
Proof.
  intros [Hid Hnd]. revert Hnd.
  induction Hid as [|b bs Hb Hid IH]; [intros _ []|].
  rewrite ids_cons, without_cons.
  destruct (id b) as [j|] eqn:Hj; [|congruence]. intros Hnd Hk.
  inversion Hnd as [|? ? Hnot Hnd']; subst.
  unfold has_id. rewrite Hj.
  destruct (Z.eqb_spec j k) as [->|Hjk]; cbn [List.length].
  - rewrite (without_keeps k bs Hnot). lia.
  - destruct Hk as [Hk|Hk]; [congruence|].
    specialize (IH Hnd' Hk). lia.
Qed.

End KeysOfTheTable.

(* ================================================================== *)
(** ** The pages of the script *)

Section Pages.

Variables (ui : Widgets) (w : World).

Lemma main_view_eq :
  menu ui = View_Books ->
  main ui w =
  let r := get_all_books (opened "Your Book Collection" w) in
  match fst r with
  | Returned df =>
      (Returned tt,
       emit (if empty df
             then ElInfo
                    "No books in your library yet. Add some books to get started!"
             else ElDataframe df)
            (snd r))
  | Raised e => (Raised e, snd r)
  end.
Proof.
  intros Hm. unfold main. rewrite Hm.
  unfold st_title, st_header, st_dataframe, st_info, modify, bind, opened.
  cbv zeta. destruct (get_all_books _) as [[df|e] w1]; [|reflexivity].
  cbn [fst snd]. destruct (empty df); reflexivity.
Qed.

Lemma main_add_eq :
  menu ui = Add_Book ->
  main ui w =
  let w0 := opened "Add New Book" w in
  if add_submitted ui then
    if truthy (strip (title_input ui)) && truthy (strip (author_input ui)) then
      match add_book (Some (title_input ui)) (Some (author_input ui))
              (Some (isbn_input ui)) (Some (category_input ui))
              (Some (publication_year_input ui)) w0 with
      | (Returned true, w1) =>
          (Returned tt,
           set_cache None
             (emit ElBalloons
                (emit (ElSuccess ("Book '" ++ title_input ui ++ "' by "
                                  ++ author_input ui
                                  ++ " added successfully!")) w1)))
      | (Returned false, w1) => (Returned tt, w1)
      | (Raised e, w1) => (Raised e, w1)
      end
    else (Returned tt, emit (ElError "Title and Author are required fields") w0)
  else (Returned tt, w0).
Proof.
  intros Hm. unfold main. rewrite Hm.
  unfold st_title, st_header, st_success, st_balloons, st_error,
    get_all_books_clear, modify, bind, ret, opened.
  cbv zeta. destruct (add_submitted ui); [|reflexivity].
  destruct (_ && _); [|reflexivity].
  destruct (add_book _ _ _ _ _ _) as [[[|]|e] w1]; reflexivity.
Qed.

Lemma main_delete_eq :
  menu ui = Delete_Book ->
  main ui w =
  let r := get_all_books (opened "Delete Book" w) in
  match fst r with
  | Raised e => (Raised e, snd r)
  | Returned df =>
      if empty df
      then (Returned tt, emit (ElInfo "No books in your library yet.") (snd r))
      else
        let w2 := emit (ElDataframe df) (snd r) in
        if delete_submitted ui then
          match delete_book (book_id_input ui) w2 with
          | (Returned true, w3) =>
              (Returned tt,
               set_cache None
                 (emit (ElSuccess ("Book ID " ++ str_int (book_id_input ui)
                                   ++ " deleted successfully")) w3))
          | (Returned false, w3) =>
              (Returned tt, emit (ElError "Book ID not found") w3)
          | (Raised e, w3) => (Raised e, w3)
          end
        else (Returned tt, w2)
  end.
Proof.
  intros Hm. unfold main. rewrite Hm.
  unfold st_title, st_header, st_dataframe, st_info, st_success, st_error,
    get_all_books_clear, modify, bind, ret, opened.
  cbv zeta. destruct (get_all_books _) as [[df|e] w1]; [|reflexivity].
  cbn [fst snd]. destruct (empty df); [reflexivity|]. cbn [negb].
  destruct (delete_submitted ui); [|reflexivity].
  destruct (delete_book _ _) as [[[|]|e] w3]; reflexivity.
Qed.

End Pages.

Section Returning.




End Returning.

Section TableInvariants.

Lemma add_book_table_change (t a i c : option string) (y : option Z)
    (w : World) :
  table_change (books w) (books (snd (add_book t a i c y w))).
Proof.
  change (snd (add_book t a i c y w)) with (call (Call_add t a i c y) w).
  apply call_table_change.
Qed.

Lemma delete_book_table_change (k : Z) (w : World) :
  table_change (books w) (books (snd (delete_book k w))).
Proof.
  change (snd (delete_book k w)) with (call (Call_delete k) w).
  apply call_table_change.
Qed.

(** A run of the script does to the table what one call does. *)
Lemma main_table_change (ui : Widgets) (w : World) :
  table_change (books w) (books (snd (main ui w))).
Proof.
  destruct (menu ui) eqn:Hm.
  - rewrite (main_view_eq ui w Hm). cbv zeta.
    pose proof (get_all_books_keeps_books (opened "Your Book Collection" w))
      as Hb.
    destruct (get_all_books _) as [[df|e] w1]; left; exact Hb.
  - rewrite (main_add_eq ui w Hm). cbv zeta.
    destruct (add_submitted ui); [|now left].
    destruct (_ && _); [|now left].
    pose proof (add_book_table_change (Some (title_input ui))
                  (Some (author_input ui)) (Some (isbn_input ui))
                  (Some (category_input ui))
                  (Some (publication_year_input ui))
                  (opened "Add New Book" w)) as H.
    destruct (add_book _ _ _ _ _ _) as [[[|]|e] w1]; exact H.
  - rewrite (main_delete_eq ui w Hm). cbv zeta.
    pose proof (get_all_books_keeps_books (opened "Delete Book" w)) as Hb.
    destruct (get_all_books _) as [[df|e] w1]; cbn [fst snd] in *;
      [|left; exact Hb].
    destruct (empty df); [left; exact Hb|].
    destruct (delete_submitted ui); [|left; exact Hb].
    pose proof (delete_book_table_change (book_id_input ui)
                  (emit (ElDataframe df) w1)) as H.
    change (books (emit (ElDataframe df) w1)) with (books w1) in H.
    rewrite Hb in H.
    destruct (delete_book _ _) as [[[|]|e] w3]; exact H.
Qed.

Lemma step_table_change (s : Step) (w : World) :
  table_change (books w) (books (step s w)).
Proof. destruct s; [apply main_table_change | now left]. Qed.

(** Keys stay present and distinct.  From a table in which every record
    has a key and no key occurs twice (the empty table of a new database
    is one), no sequence of calls of the service functions and no sequence
    of runs of the script leads to a table with a record without a key or
    with two records under one key. *)
Theorem keys_stay_distinct :
  keyed [] /\
  (forall (cs : list Call) (w : World),
      keyed (books w) -> keyed (books (calls cs w))) /\
  (forall (ss : list Step) (w : World),
      keyed (books w) -> keyed (books (steps ss w))).
Proof.
  split; [split; constructor|]. split.
  - intros cs. induction cs as [|c cs IH]; intros w H; [exact H|].
    cbn. apply IH. apply (table_change_keyed (books w)); [|exact H].
    apply call_table_change.
  - intros ss. induction ss as [|s ss IH]; intros w H; [exact H|].
    cbn. apply IH. apply (table_change_keyed (books w)); [|exact H].
    apply step_table_change.
Qed.

Lemma keys_stay_distinct_witness :
  keyed (books fresh_world) /\
  keyed (books (steps [ Run add_kitab_form; Pause 5; Run add_kitab_form ]
                  fresh_world)).
Proof.
  assert (H : keyed (books fresh_world)) by (split; constructor).
  split; [exact H|].
  exact (proj2 (proj2 keys_stay_distinct)
           [ Run add_kitab_form; Pause 5; Run add_kitab_form ]
           fresh_world H).
Defined.

(** A successful [delete_book k] removes exactly one record.  In a table
    with distinct keys, when the storage layer refuses nothing and a
    record has key [k], the table is one record shorter afterwards, and
    every record with another key is still there, in the same order. *)
Theorem delete_book_removes_one (k : Z) (w : World) :
  quiet w -> keyed (books w) -> In k (ids (books w)) ->
  let w' := snd (delete_book k w) in
  (List.length (books w') + 1 = List.length (books w))%nat /\
  books w' = filter (fun b => negb (has_id k b)) (books w) /\
  forall b, In b (books w) -> id b <> Some k -> In b (books w').
Proof.
  intros Hq Hkeyed Hk. cbv zeta. rewrite (delete_book_quiet k w Hq).
  pose proof Hk as Hl. apply lookup_ids in Hl.
  destruct (lookup k (books w)) as [found|]; [|congruence]. cbn [snd].
  change (books (set_books ?bs _)) with bs.
  split; [now apply without_length|]. split; [reflexivity|].
  intros b Hb Hid. unfold without. apply filter_In. split; [exact Hb|].
  destruct (has_id k b) eqn:E; [|reflexivity].
  apply has_id_true in E. congruence.
Qed.

Lemma delete_book_removes_one_witness :
  let w := snd (add_book (Some "Al-Qanun fi al-Tibb") (Some "Ibn Sina")
                  (Some "") (Some "Science") (Some 1025) kitab_world) in
  quiet w /\ keyed (books w) /\ In 1 (ids (books w)) /\
  List.length (books w) = 2%nat /\
  List.length (books (snd (delete_book 1 w))) = 1%nat.
Proof.
  cbv zeta.
  set (w := snd (add_book (Some "Al-Qanun fi al-Tibb") (Some "Ibn Sina")
                   (Some "") (Some "Science") (Some 1025) kitab_world)).
  assert (Hq : quiet w) by constructor.
  assert (Hk : keyed (books w)).
  { split.
    - repeat constructor; discriminate.
    - repeat constructor; cbn; intuition discriminate. }
  assert (H1 : In 1 (ids (books w))) by (left; reflexivity).
  split; [exact Hq|]. split; [exact Hk|]. split; [exact H1|].
  split; [reflexivity|].
  pose proof (proj1 (delete_book_removes_one 1 w Hq Hk H1)) as H.
  cbn [List.length] in H. change (List.length (books w)) with 2%nat in H. lia.
Defined.

(** Adding a book and deleting it again.  When the storage layer refuses
    nothing, the record [add_book] stores is found under the key it was
    given, [delete_book] with that key returns true, and the table is
    then exactly the table from before the addition. *)
Theorem add_then_delete (t a : string) (i c : option string) (y : option Z)
    (w : World) :
  quiet w ->
  let k := next_rowid (books w) in
  let w1 := snd (add_book (Some t) (Some a) i c y w) in
  let r2 := delete_book k w1 in
  lookup k (books w1) = Some (stored_book (books w) (Some t) (Some a) i c y) /\
  fst r2 = Returned true /\
  books (snd r2) = books w.
Proof.
  intros Hq. cbv zeta. rewrite add_book_eq. cbv zeta.
  rewrite (quiet_refused w Hq). cbn [snd].
  set (w1 := set_books _ _).
  assert (Hq1 : quiet w1).
  { apply (quiet_sent (INSERT (apply_defaults (Book_init None None None None None)))
             w Hq). }
  assert (Hl : lookup (next_rowid (books w)) (books w1)
               = Some (stored_book (books w) (Some t) (Some a) i c y)).
  { apply lookup_appended; [apply next_rowid_fresh | reflexivity]. }
  split; [exact Hl|].
  rewrite (delete_book_quiet _ w1 Hq1), Hl. cbn [fst snd].
  split; [reflexivity|].
  change (books (set_books ?bs _)) with bs.
  change (books w1)
    with (books w ++ [stored_book (books w) (Some t) (Some a) i c y])%list.
  unfold without. rewrite filter_app.
  fold (without (next_rowid (books w)) (books w)).
  rewrite (without_keeps _ _ (next_rowid_fresh (books w))).
  cbn [filter]. unfold has_id at 1. cbn [id stored_book].
  rewrite Z.eqb_refl. cbn [negb]. apply app_nil_r.
Qed.

End TableInvariants.

Lemma add_then_delete_witness :
  quiet kitab_world /\
  books (snd (delete_book 2
                (snd (add_book (Some "Al-Qanun fi al-Tibb") (Some "Ibn Sina")
                        (Some "") (Some "Science") (Some 1025) kitab_world))))
  = [kitab].
Proof.
  assert (Hq : quiet kitab_world) by constructor.
  split; [exact Hq|].
  exact (proj2 (proj2 (add_then_delete "Al-Qanun fi al-Tibb" "Ibn Sina"
                         (Some "") (Some "Science") (Some 1025)
                         kitab_world Hq))).
Defined.

(* ================================================================== *)
(** ** The cache across runs of the script *)

Section Coherence.






End Coherence.


(* ================================================================== *)
(** ** What the pages do at the edges *)

Section PageEdges.

Lemma rstrip_blank (s : string) : blank s = true -> rstrip s = "".
Proof.
  induction s as [|c s IH]; cbn; [reflexivity|].
  intros H. apply andb_true_iff in H as [Hc Hs].
  now rewrite (IH Hs), Hc.
Qed.

Lemma rstrip_empty (s : string) : rstrip s = "" -> blank s = true.
Proof.
  induction s as [|c s IH]; cbn; [reflexivity|].
  destruct (rstrip s) eqn:E; [|discriminate].
  destruct (isspace c); [|discriminate]. intros _. now rewrite IH.
Qed.

(** [s.strip()] is the empty text exactly when [s] is blank. *)
Lemma truthy_strip (s : string) : truthy (strip s) = negb (blank s).
Proof.
  unfold strip. induction s as [|c s IH]; [reflexivity|].
  cbn [rstrip blank]. destruct (rstrip s) as [|d kept] eqn:E.
  - rewrite (rstrip_empty s E), andb_true_r.
    destruct (isspace c) eqn:Hc; cbn; [reflexivity|]. now rewrite Hc.
  - cbn [lstrip]. destruct (isspace c); cbn [andb negb]; [exact IH|].
    reflexivity.
Qed.

Variables (ui : Widgets) (w : World).

(** The presence check of the page "Add Book".  When the form is sent and
    the title or the author is empty or made of white space only, nothing
    is sent to the storage layer, table and cache stay as they are, and
    the page says that both fields are required.  When neither is blank,
    the INSERT is sent, with the texts as they were typed (not
    stripped). *)
Theorem add_page_presence_check :
  menu ui = Add_Book -> add_submitted ui = true ->
  let w' := snd (main ui w) in
  if blank (title_input ui) || blank (author_input ui)
  then
    statements w' = statements w /\ books w' = books w /\
    cache w' = cache w /\
    page w'
    = (page w ++
       [ ElTitle "Bayt al-Hikma: Database Connectivity Personal Library Manager";
         ElHeader "Add New Book";
         ElError "Title and Author are required fields" ])%list
  else
    statements w'
    = (statements w ++
       [ INSERT {| id := None; title := Some (title_input ui);
                   author := Some (author_input ui);
                   isbn := Some (isbn_input ui);
                   category := Some (category_input ui);
                   publication_year := Some (publication_year_input ui);
                   status := Some "available" |} ])%list.
Proof.
  intros Hm Hs. cbv zeta. rewrite (main_add_eq ui w Hm). cbv zeta.
  rewrite Hs, !truthy_strip, <- negb_orb.
  destruct (blank (title_input ui) || blank (author_input ui)); cbn [negb].
  - cbn [snd]. repeat split. cbn [opened emit page].
    now rewrite <- !app_assoc.
  - rewrite add_book_eq. cbv zeta.
    destruct (refused (opened "Add New Book" w)); reflexivity.
Qed.

(** The page "Add Book" when the storage layer refuses the INSERT: the
    error is shown, and neither the success message nor the balloons;
    the table is as it was and the cache is not cleared. *)
Theorem add_page_storage_error (m : string) :
  menu ui = Add_Book -> add_submitted ui = true ->
  blank (title_input ui) = false -> blank (author_input ui) = false ->
  refused w = Some m ->
  let w' := snd (main ui w) in
  books w' = books w /\ cache w' = cache w /\
  page w'
  = (page w ++
     [ ElTitle "Bayt al-Hikma: Database Connectivity Personal Library Manager";
       ElHeader "Add New Book";
       ElError ("Error adding book: " ++ m) ])%list.
Proof.
  intros Hm Hs Ht Ha Hr. cbv zeta. rewrite (main_add_eq ui w Hm). cbv zeta.
  rewrite Hs, !truthy_strip, Ht, Ha. cbn [negb andb].
  rewrite add_book_eq. cbv zeta.
  change (refused (opened "Add New Book" w)) with (refused w). rewrite Hr.
  cbn [snd]. repeat split. cbn [opened emit sent page log_statement set_faults].
  now rewrite <- !app_assoc.
Qed.

(** The page "View Books" when the storage layer refuses the SELECT and no
    cached snapshot is live: the error is shown, followed by the notice
    that the library holds no books, whatever the table holds; the empty
    frame is cached, and the table is as it was. *)
Theorem view_page_storage_error (m : string) :
  menu ui = View_Books -> live w = false -> refused w = Some m ->
  let w' := snd (main ui w) in
  books w' = books w /\ cache w' = Some (clock w, []) /\
  page w'
  = (page w ++
     [ ElTitle "Bayt al-Hikma: Database Connectivity Personal Library Manager";
       ElHeader "Your Book Collection";
       ElError ("Error retrieving books: " ++ m);
       ElInfo "No books in your library yet. Add some books to get started!" ])%list.
Proof.
  intros Hm Hl Hr. cbv zeta. rewrite (main_view_eq ui w Hm). cbv zeta.
  rewrite (get_all_books_miss (opened "Your Book Collection" w) Hl).
  change (refused (opened "Your Book Collection" w)) with (refused w).
  rewrite Hr. cbn [fst snd empty]. repeat split.
  cbn [opened emit sent page log_statement set_faults set_cache].
  now rewrite <- !app_assoc.
Qed.

End PageEdges.

Lemma add_page_presence_check_witness :
  menu blank_title_form = Add_Book /\ add_submitted blank_title_form = true /\
  statements (snd (main blank_title_form kitab_world)) = [] /\
  books (snd (main blank_title_form kitab_world)) = [kitab].
Proof.
  split; [reflexivity|]. split; [reflexivity|].
  pose proof (add_page_presence_check blank_title_form kitab_world
                eq_refl eq_refl) as H.
  cbv zeta in H.
  change (blank (title_input blank_title_form)
          || blank (author_input blank_title_form)) with true in H.
  split; [apply H | apply H].
Defined.

Lemma add_page_storage_error_witness :
  menu add_kitab_form = Add_Book /\ add_submitted add_kitab_form = true /\
  blank (title_input add_kitab_form) = false /\
  blank (author_input add_kitab_form) = false /\
  refused (locked_once kitab_listed) = Some "database is locked" /\
  cache (snd (main add_kitab_form (locked_once kitab_listed)))
  = Some (0, [book_dict kitab]).
Proof.
  split; [reflexivity|]. split; [reflexivity|]. split; [reflexivity|].
  split; [reflexivity|]. split; [reflexivity|].
  exact (proj1 (proj2 (add_page_storage_error add_kitab_form
                         (locked_once kitab_listed) "database is locked"
                         eq_refl eq_refl eq_refl eq_refl eq_refl))).
Defined.

Lemma view_page_storage_error_witness :
  menu view_form = View_Books /\ live (locked_once kitab_world) = false /\
  refused (locked_once kitab_world) = Some "database is locked" /\
  books (snd (main view_form (locked_once kitab_world))) = [kitab] /\
  cache (snd (main view_form (locked_once kitab_world))) = Some (0, []).
Proof.
  split; [reflexivity|]. split; [reflexivity|]. split; [reflexivity|].
  pose proof (view_page_storage_error view_form (locked_once kitab_world)
                "database is locked" eq_refl eq_refl eq_refl) as H.
  cbv zeta in H. split; [apply H | apply H].
Defined.

Section DeletePage.

Lemma get_all_books_statements (w : World) :
  statements (snd (get_all_books w)) = statements w \/
  statements (snd (get_all_books w)) = (statements w ++ [SELECT_all])%list.
Proof.
  destruct (live w) eqn:Hl.
  - destruct (live_cache w Hl) as (stored & v & Hc & Ht).
    rewrite (get_all_books_hit w stored v Hc Ht). now left.
  - rewrite (get_all_books_miss w Hl). right.
    destruct (refused w); reflexivity.
Qed.

Variables (ui : Widgets) (w : World).

(** The page "Delete Book" offers its form only under a listing that is
    not empty.  When the listing comes back empty (no record, a cached
    empty snapshot, or a refused SELECT), [delete_book] is not called even
    if the widgets say that the form was sent: at most the SELECT of the
    listing is sent, the table is as it was, and the page ends with the
    notice that the library holds no books. *)
Theorem delete_page_empty_listing :
  menu ui = Delete_Book -> fst (get_all_books w) = Returned [] ->
  let w' := snd (main ui w) in
  books w' = books w /\
  (statements w' = statements w \/
   statements w' = (statements w ++ [SELECT_all])%list) /\
  exists shown,
    page w' = (shown ++ [ElInfo "No books in your library yet."])%list.
Proof.
  intros Hm He. cbv zeta. rewrite (main_delete_eq ui w Hm). cbv zeta.
  assert (He0 : fst (get_all_books (opened "Delete Book" w)) = Returned []).
  { rewrite <- He. apply get_all_books_result; reflexivity. }
  rewrite He0. cbn [empty snd]. split; [|split].
  - apply (get_all_books_keeps_books (opened "Delete Book" w)).
  - apply (get_all_books_statements (opened "Delete Book" w)).
  - now eexists.
Qed.

(** The page "Delete Book" when [delete_book] returns false, the frame
    shown above the form being served from the cache.  If the storage
    layer refuses the lookup, the page shows the storage error and then
    "Book ID not found", whether or not a record has that key.  If it
    refuses nothing and no record has the key, the page shows "Book ID
    not found".  In both cases the table is as it was and the cache is
    not cleared. *)
Theorem delete_page_not_found (stored : Z) (df : DataFrame) :
  menu ui = Delete_Book -> delete_submitted ui = true ->
  cache w = Some (stored, df) -> clock w < stored + 60 -> empty df = false ->
  let w' := snd (main ui w) in
  match refused w with
  | Some m =>
      books w' = books w /\ cache w' = cache w /\
      page w'
      = (page w ++
         [ ElTitle
             "Bayt al-Hikma: Database Connectivity Personal Library Manager";
           ElHeader "Delete Book";
           ElDataframe df;
           ElError ("Error deleting book: " ++ m);
           ElError "Book ID not found" ])%list
  | None =>
      ~ In (book_id_input ui) (ids (books w)) ->
      books w' = books w /\ cache w' = cache w /\
      page w'
      = (page w ++
         [ ElTitle
             "Bayt al-Hikma: Database Connectivity Personal Library Manager";
           ElHeader "Delete Book";
           ElDataframe df;
           ElError "Book ID not found" ])%list
  end.
Proof.
  intros Hm Hs Hc Ht He. cbv zeta. rewrite (main_delete_eq ui w Hm). cbv zeta.
  rewrite (get_all_books_hit (opened "Delete Book" w) stored df Hc Ht).
  cbn [fst snd]. rewrite He, Hs. rewrite delete_book_eq. cbv zeta.
  change (refused (emit _ (opened _ w))) with (refused w).
  destruct (refused w) as [m|].
  - cbn [snd]. repeat split.
    cbn [opened emit sent page log_statement set_faults].
    now rewrite <- !app_assoc.
  - intros Hk. change (books (emit _ (opened _ w))) with (books w).
    rewrite (lookup_absent _ _ Hk). cbn [snd]. repeat split.
    cbn [opened emit sent page log_statement set_faults].
    now rewrite <- !app_assoc.
Qed.

End DeletePage.

Lemma delete_page_empty_listing_witness :
  menu (delete_form 1) = Delete_Book /\
  fst (get_all_books (locked_once kitab_world)) = Returned [] /\
  books (snd (main (delete_form 1) (locked_once kitab_world))) = [kitab].
Proof.
  split; [reflexivity|]. split; [reflexivity|].
  exact (proj1 (delete_page_empty_listing (delete_form 1)
                  (locked_once kitab_world) eq_refl eq_refl)).
Defined.

Lemma delete_page_not_found_witness :
  menu (delete_form 1) = Delete_Book /\
  delete_submitted (delete_form 1) = true /\
  cache (locked_once kitab_listed) = Some (0, [book_dict kitab]) /\
  clock (locked_once kitab_listed) < 0 + 60 /\
  In 1 (ids (books (locked_once kitab_listed))) /\
  books (snd (main (delete_form 1) (locked_once kitab_listed))) = [kitab].
Proof.
  split; [reflexivity|]. split; [reflexivity|]. split; [reflexivity|].
  split; [reflexivity|]. split; [left; reflexivity|].
  pose proof (delete_page_not_found (delete_form 1) (locked_once kitab_listed)
                0 [book_dict kitab] eq_refl eq_refl eq_refl eq_refl eq_refl)
    as H.
  cbv zeta in H.
  change (refused (locked_once kitab_listed))
    with (Some "database is locked") in H.
  apply H.
Defined.

(* ================================================================== *)
(** ** Creating the tables *)

Section CreatingTables.

Lemma has_table_app (n : string) (db extra : Database) :
  has_table n (db ++ extra)%list = has_table n db || has_table n extra.
Proof. unfold has_table. apply existsb_app. Qed.

(** [create_all] only appends empty tables. *)
Lemma create_all_appends (md : list Table) (db : Database) :
  exists extra,
    create_all md db = (db ++ extra)%list /\
    Forall (fun t => rows t = []) extra.
Proof.
  unfold create_all. revert db. induction md as [|t md IH]; intros db; cbn.
  - exists []. now rewrite app_nil_r.
  - destruct (has_table (tablename t) db).
    + apply IH.
    + destruct (IH (db ++ [ {| definition := t; rows := [] |} ])%list)
        as (extra & E & Hx).
      exists ({| definition := t; rows := [] |} :: extra). split.
      * now rewrite E, <- app_assoc.
      * now constructor.
Qed.

Lemma create_all_keeps_tables (md : list Table) (db : Database) (n : string) :
  has_table n db = true -> has_table n (create_all md db) = true.
Proof.
  intros H. destruct (create_all_appends md db) as (extra & -> & _).
  now rewrite has_table_app, H.
Qed.

Lemma create_all_creates (md : list Table) (db : Database) (t : Table) :
  In t md -> has_table (tablename t) (create_all md db) = true.
Proof.
  revert db. induction md as [|u md IH]; intros db; [intros []|].
  intros [->|Hin].
  - change (create_all (t :: md) db)
      with (create_all md
              (if has_table (tablename t) db then db
               else (db ++ [ {| definition := t; rows := [] |} ])%list)).
    apply create_all_keeps_tables.
    destruct (has_table (tablename t) db) eqn:E; [exact E|].
    rewrite has_table_app. cbn. rewrite String.eqb_refl.
    now rewrite orb_true_r.
  - now apply IH.
Qed.

Lemma create_all_nothing_to_do (md : list Table) (db : Database) :
  (forall t, In t md -> has_table (tablename t) db = true) ->
  create_all md db = db.
Proof.
  unfold create_all. induction md as [|t md IH]; intros H; [reflexivity|].
  cbn. rewrite (H t (or_introl eq_refl)). apply IH.
  intros u Hu. apply H. now right.
Qed.

Lemma rows_of_app (n : string) (db extra : Database) :
  has_table n db = true -> rows_of n (db ++ extra)%list = rows_of n db.
Proof.
  unfold rows_of, has_table. induction db as [|t db IH]; cbn; [discriminate|].
  destruct (String.eqb (tablename (definition t)) n); [reflexivity|].
  exact IH.
Qed.

Lemma rows_of_absent (n : string) (db : Database) :
  has_table n db = false -> rows_of n db = None.
Proof.
  unfold rows_of, has_table. induction db as [|t db IH]; cbn; [reflexivity|].
  destruct (String.eqb (tablename (definition t)) n); [discriminate|].
  exact IH.
Qed.

Lemma rows_of_appended (n : string) (db extra : Database) :
  has_table n db = false -> rows_of n (db ++ extra)%list = rows_of n extra.
Proof.
  unfold rows_of, has_table. induction db as [|t db IH]; cbn; [reflexivity|].
  destruct (String.eqb (tablename (definition t)) n); [discriminate|].
  exact IH.
Qed.

(** Creating the tables is safe to repeat.  [create_all] leaves every
    table the database already has as it is, rows and definition, and
    only appends empty tables; a second [create_all] with the same
    metadata changes nothing.  So importing [app], which creates the
    tables twice, yields a database with the table [books], holding the
    rows it held before or none if it was not there. *)
Theorem create_all_is_idempotent (md : list Table) (db : Database) :
  (exists extra, create_all md db = (db ++ extra)%list /\
                 Forall (fun t => rows t = []) extra) /\
  create_all md (create_all md db) = create_all md db /\
  import_app db = create_all metadata db /\
  has_table "books" (import_app db) = true /\
  rows_of "books" (import_app db)
  = match rows_of "books" db with
    | Some rs => Some rs
    | None => Some []
    end.
Proof.
  assert (Idem : forall md' db',
             create_all md' (create_all md' db') = create_all md' db').
  { intros md' db'. apply create_all_nothing_to_do.
    intros t Ht. now apply create_all_creates. }
  split; [apply create_all_appends|]. split; [apply Idem|].
  unfold import_app. rewrite Idem. split; [reflexivity|].
  split; [apply (create_all_creates metadata db Book_table); now left|].
  unfold create_all, metadata. cbn [fold_left tablename Book_table].
  destruct (has_table "books" db) eqn:E.
  - unfold rows_of, has_table in *.
    destruct (find _ db) eqn:F; [reflexivity|].
    exfalso. apply existsb_exists in E as (t & Ht & Hn).
    apply (find_none _ _ F) in Ht. congruence.
  - rewrite (rows_of_absent _ _ E), rows_of_appended by exact E.
    unfold rows_of. cbn. reflexivity.
Qed.

End CreatingTables.
